(** * The C++ executor of Scribble (src/executors/cpp/runner.cpp)

    A shallow embedding of the runner: the base64 decoder, the JSON
    escaping, the memory probes, [printError] and [main], followed by the
    properties of the judge that the specification states about them.

    Conventions of the embedding:
    - a [std::string] is a [string] (a list of 8-bit characters);
    - an [int] is a [Z] kept in the 32-bit two's complement range by
      [int_wrap] wherever the source computes one; a [long] is a [Z];
    - the process environment is a finite map from names to values;
    - everything the process observes from outside (whether a file opens,
      what the compiler prints and returns, the clock, the memory files) is
      a field of [World];
    - the process state ([std::cout], the files written, the sequence of
      system interactions) is threaded explicitly through [main]. *)

From Stdlib Require Import ZArith Lia Ascii String DecimalString.
From stdpp Require Import base list strings gmap.

Local Open Scope string_scope.
Local Open Scope Z_scope.

Set Warnings "-register-all".

(** ** Machine integers *)

(** The value an [int] holds after an operation whose mathematical result is
    [z]: 32-bit two's complement wrap-around. *)
Definition int_wrap (z : Z) : Z := (z + 2 ^ 31) mod 2 ^ 32 - 2 ^ 31.

(** The numeric value of a character read as [unsigned char]. *)
Definition uchar (c : ascii) : nat := nat_of_ascii c.

(** [char(z)] for [0 <= z < 256]. *)
Definition char_of_Z (z : Z) : ascii := ascii_of_nat (Z.to_nat z).

(** ** Base64 decoding *)

Module Base64.

(** The alphabet string of the decoder. *)
Definition base64_chars : string :=
  "ABCDEFGHIJKLMNOPQRSTUVWXYZabcdefghijklmnopqrstuvwxyz0123456789+/".

(** [base64_chars[i]]. *)
Definition char_at (s : string) (i : nat) : ascii :=
  match String.get i s with Some c => c | None => zero end.

(** [std::vector<int> T(256, -1); for (i = 0; i < 64; i++) T[base64_chars[i]] = i;] *)
Definition T : list Z :=
  foldl (fun (t : list Z) (i : nat) => <[ uchar (char_at base64_chars i) := Z.of_nat i ]> t)
        (replicate 256 (-1)) (seq 0 64).

(** [T[c]] for an [unsigned char c]. *)
Definition T_at (c : ascii) : Z :=
  match T !! uchar c with Some v => v | None => -1 end.

(** The body of the [for (unsigned char c : encoded)] loop, with the loop
    variables [val], [valb] and the output [decoded] as arguments. *)
Fixpoint decode_loop (encoded : string) (val valb : Z) (decoded : string) : string :=
  match encoded with
  | EmptyString => decoded
  | String c rest =>
      if T_at c =? -1 then decoded
      else
        let val := int_wrap (int_wrap (Z.shiftl val 6) + T_at c) in
        let valb := valb + 6 in
        if 0 <=? valb then
          decode_loop rest val (valb - 8)
            (decoded +:+ String (char_of_Z (Z.land (Z.shiftr val valb) 255)) EmptyString)
        else decode_loop rest val valb decoded
  end.

Definition base64_decode (encoded : string) : string :=
  decode_loop encoded 0 (-8) EmptyString.

(** [val] after the assignment [val = (val << 6) + t] of the loop. *)
Definition push (val t : Z) : Z := int_wrap (int_wrap (Z.shiftl val 6) + t).

(** *** What decoding means, independently of the loop *)

(** Membership in the 64-character alphabet A-Z, a-z, 0-9, '+', '/'. *)
Definition is_alphabet (c : ascii) : bool :=
  let n := uchar c in
  ((65 <=? n) && (n <=? 90) || (97 <=? n) && (n <=? 122)
   || (48 <=? n) && (n <=? 57) || (n =? 43) || (n =? 47))%nat.

(** The 6-bit value of an alphabet character. *)
Definition sextet (c : ascii) : Z :=
  let n := Z.of_nat (uchar c) in
  if (65 <=? n) && (n <=? 90) then n - 65
  else if (97 <=? n) && (n <=? 122) then n - 97 + 26
  else if (48 <=? n) && (n <=? 57) then n - 48 + 52
  else if n =? 43 then 62
  else 63.

(** The longest prefix made of alphabet characters only. *)
Fixpoint alphabet_prefix (s : string) : string :=
  match s with
  | EmptyString => EmptyString
  | String c rest => if is_alphabet c then String c (alphabet_prefix rest) else EmptyString
  end.

(** Base64 proper: four 6-bit values carry three bytes, most significant
    bits first; two or three trailing values carry one or two bytes, a
    single trailing value carries none. *)
Fixpoint decode_groups (l : list Z) : list Z :=
  match l with
  | a :: b :: c :: d :: rest =>
      (a * 4 + b / 16) :: (b mod 16 * 16 + c / 4) :: (c mod 4 * 64 + d)
      :: decode_groups rest
  | [a; b; c] => [a * 4 + b / 16; b mod 16 * 16 + c / 4]
  | [a; b] => [a * 4 + b / 16]
  | _ => []
  end.

Definition sextets (s : string) : list Z := map sextet (list_ascii_of_string s).

Definition string_of_bytes (l : list Z) : string :=
  string_of_list_ascii (map char_of_Z l).

End Base64.

(** ** Text helpers *)

(** The characters that cannot be written bare inside a literal. *)
Definition dq : string := String (ascii_of_nat 34) EmptyString.
Definition bs : string := String (ascii_of_nat 92) EmptyString.
Definition nl : string := String (ascii_of_nat 10) EmptyString.

(** [std::ostream << n] for an [int] or a [long]: decimal, with a leading
    minus sign for a negative number. *)
Definition dec (z : Z) : string := NilZero.string_of_int (Z.to_int z).

(** [escapeJson]: the switch of the source, one character at a time. *)
Fixpoint escapeJson (s : string) : string :=
  match s with
  | EmptyString => EmptyString
  | String c rest =>
      (if Ascii.eqb c (ascii_of_nat 34) then bs +:+ dq
       else if Ascii.eqb c (ascii_of_nat 92) then bs +:+ bs
       else if Ascii.eqb c (ascii_of_nat 10) then bs +:+ "n"
       else if Ascii.eqb c (ascii_of_nat 13) then bs +:+ "r"
       else if Ascii.eqb c (ascii_of_nat 9) then bs +:+ "t"
       else String c EmptyString) +:+ escapeJson rest
  end.

(** ** Structured records

    The runner prints its report as text. [json] is the structured value a
    consumer reads back from that text; every write to [std::cout] below is
    recorded both as text and as the value it renders. *)

Inductive json : Type :=
| JNum (n : Z)
| JStr (s : string)
| JArr (items : list json)
| JObj (fields : list (string * json)).

Definition join (sep : string) (l : list string) : string :=
  match l with
  | [] => EmptyString
  | x :: rest => foldl (fun acc y => acc +:+ sep +:+ y) x rest
  end.

Fixpoint render (j : json) : string :=
  match j with
  | JNum n => dec n
  | JStr s => dq +:+ escapeJson s +:+ dq
  | JArr items => "[" +:+ join "," (map render items) +:+ "]"
  | JObj fields =>
      "{" +:+ join "," (map (fun kv => dq +:+ escapeJson (fst kv) +:+ dq +:+ ":" +:+ render (snd kv)) fields)
      +:+ "}"
  end.

(** The value under key [k] of an object. *)
Fixpoint assoc (k : string) (fields : list (string * json)) : option json :=
  match fields with
  | [] => None
  | (k', v) :: rest => if String.eqb k k' then Some v else assoc k rest
  end.

Definition field (k : string) (j : json) : option json :=
  match j with JObj fields => assoc k fields | _ => None end.

(** The per-test entries a report lists under [test_results]; a report that
    carries no such key lists none. *)
Definition test_results (r : json) : list json :=
  match field "test_results" r with Some (JArr items) => items | _ => [] end.

Definition is_accepted (t : json) : bool :=
  match field "status" t with Some (JStr s) => String.eqb s "accepted" | _ => false end.

Definition count_accepted (l : list json) : nat := length (filter (fun t => is_accepted t = true) l).

(** ** The outside world *)

(** What one run of the runner observes from outside the process. The
    compiler subprocess is taken to terminate: the pipe delivers finitely
    many buffers before [fgets] returns null. *)
Record World : Type := {
  (** whether [std::ofstream] opens the path for writing *)
  can_write : string -> bool;
  (** [popen(cmd, "r")] with the given files on disk: [None] when no pipe
      is created; otherwise the successive buffers [fgets] fills (the
      bytes it read from the pipe, a NUL byte among them if the command
      printed one) and the value [pclose] returns (zero exactly when the
      command exited with status 0) *)
  popen_r : string -> gmap string string -> option (list string * Z);
  (** milliseconds counted between the two clock readings around the
      compilation *)
  compile_elapsed_ms : Z;
  (** the text of /sys/fs/cgroup/memory.peak when it opens *)
  cgroup_memory_peak : option string;
  (** the lines of /proc/self/status (none when it does not open) *)
  proc_self_status : list string;
  (** the number [stream >> n] extracts from a text *)
  read_long : string -> Z
}.

(** ** The process state *)

Inductive Event : Type :=
| EvOpenWrite (path : string) (ok : bool)
| EvWriteClose (path content : string)
| EvPopen (cmd : string) (ok : bool)
| EvPclose (status : Z).

Record Proc : Type := {
  cout : string;                 (* everything written to std::cout *)
  files : gmap string string;    (* the files this process wrote *)
  trace : list Event;            (* file writes and subprocesses, in order *)
  reports : list json            (* the records written to std::cout *)
}.

Definition start : Proc :=
  {| cout := EmptyString; files := ∅; trace := []; reports := [] |}.

Definition log (ev : Event) (st : Proc) : Proc :=
  {| cout := cout st; files := files st; trace := trace st ++ [ev]; reports := reports st |}.

(** One [std::cout << ... << std::endl] statement: [text] is what the
    insertions before [std::endl] write, [r] the record that text spells. *)
Definition emit (text : string) (r : json) (st : Proc) : Proc :=
  {| cout := cout st +:+ text +:+ nl; files := files st; trace := trace st;
     reports := reports st ++ [r] |}.

(** [outFile << ...; outFile.close()] on a stream that opened. *)
Definition write_file (path content : string) (st : Proc) : Proc :=
  {| cout := cout st; files := <[path := content]> (files st);
     trace := trace st ++ [EvWriteClose path content]; reports := reports st |}.

(** ** Memory probes *)

Definition getCgroupsMemoryPeak (w : World) : Z :=
  match cgroup_memory_peak w with
  | Some text => Z.quot (read_long w text) 1024
  | None => -1
  end.

Fixpoint scan_status (w : World) (lines : list string) : Z :=
  match lines with
  | [] => 0
  | line :: rest =>
      if String.eqb (substring 0 6 line) "VmRSS:"
      then read_long w (substring 6 (String.length line - 6) line)
      else scan_status w rest
  end.

Definition getMemoryUsage (w : World) : Z :=
  let cgroupMem := getCgroupsMemoryPeak w in
  if 0 <=? cgroupMem then cgroupMem else scan_status w (proc_self_status w).

(** ** Reporting *)

(** The record [printError] spells. *)
Definition error_report (status message : string) (compilationTimeMs executionTimeMs : Z) : json :=
  JObj [("status", JStr status); ("error_message", JStr message);
        ("compilation_time_ms", JNum compilationTimeMs);
        ("execution_time_ms", JNum executionTimeMs);
        ("memory_used_kb", JNum 0); ("tests_passed", JNum 0); ("tests_total", JNum 0)].

(** What the insertions of [printError] write before [std::endl]. *)
Definition error_text (status message : string) (compilationTimeMs executionTimeMs : Z) : string :=
  "{" +:+ dq +:+ "status" +:+ dq +:+ ":" +:+ dq +:+ status +:+ dq +:+ ","
  +:+ dq +:+ "error_message" +:+ dq +:+ ":" +:+ dq
  +:+ escapeJson message +:+ dq +:+ "," +:+ dq +:+ "compilation_time_ms" +:+ dq +:+ ":"
  +:+ dec compilationTimeMs
  +:+ "," +:+ dq +:+ "execution_time_ms" +:+ dq +:+ ":" +:+ dec executionTimeMs
  +:+ "," +:+ dq +:+ "memory_used_kb" +:+ dq +:+ ":0," +:+ dq +:+ "tests_passed" +:+ dq
  +:+ ":0," +:+ dq +:+ "tests_total" +:+ dq +:+ ":0}".

Definition printError (status message : string) (compilationTimeMs executionTimeMs : Z)
    (st : Proc) : Proc :=
  emit (error_text status message compilationTimeMs executionTimeMs)
       (error_report status message compilationTimeMs executionTimeMs) st.

(** The record the last statement of [main] spells. *)
Definition success_report (compilationTimeMs memoryKb : Z) : json :=
  JObj [("status", JStr "accepted"); ("tests_passed", JNum 0); ("tests_total", JNum 0);
        ("compilation_time_ms", JNum compilationTimeMs);
        ("execution_time_ms", JNum 0); ("total_execution_time_ms", JNum 0);
        ("memory_used_kb", JNum memoryKb); ("test_results", JArr [])].

(** What the insertions of that statement write before [std::endl]. *)
Definition success_text (compilationTimeMs memoryKb : Z) : string :=
  "{" +:+ dq +:+ "status" +:+ dq +:+ ":" +:+ dq +:+ "accepted" +:+ dq +:+ ","
  +:+ dq +:+ "tests_passed" +:+ dq +:+ ":0," +:+ dq +:+ "tests_total" +:+ dq +:+ ":0,"
  +:+ dq +:+ "compilation_time_ms" +:+ dq +:+ ":" +:+ dec compilationTimeMs
  +:+ "," +:+ dq +:+ "execution_time_ms" +:+ dq +:+ ":0," +:+ dq
  +:+ "total_execution_time_ms" +:+ dq +:+ ":0,"
  +:+ dq +:+ "memory_used_kb" +:+ dq +:+ ":" +:+ dec memoryKb
  +:+ "," +:+ dq +:+ "test_results" +:+ dq +:+ ":[]}".

Definition printSuccess (compilationTimeMs memoryKb : Z) (st : Proc) : Proc :=
  emit (success_text compilationTimeMs memoryKb)
       (success_report compilationTimeMs memoryKb) st.

(** ** C strings *)

(** The text a [char] buffer holds when it is read as a C string: its bytes
    up to, and without, the first NUL byte. *)
Fixpoint c_str (buffer : string) : string :=
  match buffer with
  | EmptyString => EmptyString
  | String c rest => if Ascii.eqb c zero then EmptyString else String c (c_str rest)
  end.

(** ** The runner *)

Definition sourceFile : string := "/tmp/user_code.cpp".
Definition execFile : string := "/tmp/user_code".

(** The includes and the [using] line written before the user code. *)
Definition scaffold : string :=
  "#include <iostream>" +:+ nl +:+ "#include <vector>" +:+ nl
  +:+ "#include <string>" +:+ nl +:+ "#include <algorithm>" +:+ nl
  +:+ "#include <cmath>" +:+ nl +:+ "#include <map>" +:+ nl
  +:+ "#include <set>" +:+ nl +:+ "#include <queue>" +:+ nl
  +:+ "#include <stack>" +:+ nl +:+ "using namespace std;" +:+ nl +:+ nl.

(** The compiler command line for an executable path and a source path. *)
Definition compile_command (exe src : string) : string :=
  "g++ -O2 -std=c++17 -o " +:+ exe +:+ " " +:+ src +:+ " 2>&1".

Definition compileCmd : string := compile_command execFile sourceFile.

(** [main]: the exit code and the final process state. [env] is the process
    environment ([std::getenv] is a lookup in it). *)
Definition main (env : gmap string string) (w : World) : Z * Proc :=
  let codeB64 := env !! "CODE" in
  let testCasesJson := env !! "TEST_CASES" in
  match codeB64 with
  | None => (0, printError "compilation_error" "No code provided" 0 0 start)
  | Some codeB64 =>
      if (String.length codeB64 =? 0)%nat
      then (0, printError "compilation_error" "No code provided" 0 0 start)
      else
        let code := Base64.base64_decode codeB64 in
        if negb (can_write w sourceFile)
        then (0, printError "compilation_error" "Failed to write source file" 0 0
                   (log (EvOpenWrite sourceFile false) start))
        else
          let st := write_file sourceFile (scaffold +:+ code +:+ nl)
                      (log (EvOpenWrite sourceFile true) start) in
          match popen_r w compileCmd (files st) with
          | None => (0, printError "compilation_error" "Failed to start compiler" 0 0
                          (log (EvPopen compileCmd false) st))
          | Some (buffers, compileStatus) =>
              let st := log (EvPopen compileCmd true) st in
              let compileOutput :=
                foldl (fun acc buffer => acc +:+ c_str buffer) EmptyString buffers in
              let st := log (EvPclose compileStatus) st in
              let compilationTimeMs := int_wrap (compile_elapsed_ms w) in
              if negb (compileStatus =? 0)
              then (0, printError "compilation_error" compileOutput compilationTimeMs 0 st)
              else
                let memoryKb := getMemoryUsage w in
                (0, printSuccess compilationTimeMs memoryKb st)
          end
  end.

(** ** The test-case payload, as the specification describes it *)

(** One element of the structured test-case list of the input channel:
    [{input, expected_output, time_limit_ms?, memory_limit_kb?}]. *)
Record TestCase : Type := {
  tc_input : string;
  tc_expected_output : string;
  tc_time_limit_ms : option Z;
  tc_memory_limit_kb : option Z
}.

Definition opt_field (k : string) (o : option Z) : list (string * json) :=
  match o with Some n => [(k, JNum n)] | None => [] end.

Definition test_case_json (t : TestCase) : json :=
  JObj ([("input", JStr (tc_input t)); ("expected_output", JStr (tc_expected_output t))]
        ++ opt_field "time_limit_ms" (tc_time_limit_ms t)
        ++ opt_field "memory_limit_kb" (tc_memory_limit_kb t)).

(** The text that supplies the test cases [tests] in TEST_CASES. *)
Definition test_cases_text (tests : list TestCase) : string :=
  render (JArr (map test_case_json tests)).

(** A TEST_CASES text is well formed when it supplies some list of tests. *)
Definition well_formed_tests (text : string) : Prop :=
  exists tests, text = test_cases_text tests.

(** ** Worlds used in the examples *)

(** A machine where files open, the compiler starts and exits with
    [status] after printing [buffers], taking [ms] milliseconds. *)
Definition simple_world (buffers : list string) (status ms : Z) : World :=
  {| can_write := fun _ => true;
     popen_r := fun _ _ => Some (buffers, status);
     compile_elapsed_ms := ms;
     cgroup_memory_peak := None;
     proc_self_status := [];
     read_long := fun _ => 0 |}.

(** ** Reading a run *)

(** The value [pclose] returned in a run, if the run got that far. *)
Fixpoint pclose_status (tr : list Event) : option Z :=
  match tr with
  | [] => None
  | EvPclose status :: _ => Some status
  | _ :: rest => pclose_status rest
  end.

(** The paths a run opened for writing and the commands it started. *)
Fixpoint opened_paths (tr : list Event) : list string :=
  match tr with
  | [] => []
  | EvOpenWrite path _ :: rest => path :: opened_paths rest
  | _ :: rest => opened_paths rest
  end.

Fixpoint started_commands (tr : list Event) : list string :=
  match tr with
  | [] => []
  | EvPopen cmd _ :: rest => cmd :: started_commands rest
  | _ :: rest => started_commands rest
  end.

(** Whether a text contains a line feed. *)
Fixpoint has_nl (s : string) : bool :=
  match s with
  | EmptyString => false
  | String c rest => Ascii.eqb c (ascii_of_nat 10) || has_nl rest
  end.

(** The lines of an output channel: each line feed closes one line; text
    after the last line feed is an unfinished line of its own. *)
Fixpoint lines_from (cur s : string) : list string :=
  match s with
  | EmptyString => match cur with EmptyString => [] | _ => [cur] end
  | String c rest =>
      if Ascii.eqb c (ascii_of_nat 10) then cur :: lines_from EmptyString rest
      else lines_from (cur +:+ String c EmptyString) rest
  end.

Definition lines (s : string) : list string := lines_from EmptyString s.

(** The state after the user code was written to the source file. *)
Definition written (code : string) : Proc :=
  write_file sourceFile (scaffold +:+ code +:+ nl) (log (EvOpenWrite sourceFile true) start).

(** The state after the compiler ran and returned [status]. *)
Definition compiled (code : string) (status : Z) : Proc :=
  log (EvPclose status) (log (EvPopen compileCmd true) (written code)).

(** [main] takes one of five paths; each ends in one print and [return 0]. *)
Inductive path (env : gmap string string) (w : World) : Z * Proc -> Prop :=
| path_no_code :
    env !! "CODE" = None \/ env !! "CODE" = Some EmptyString ->
    path env w (0, printError "compilation_error" "No code provided" 0 0 start)
| path_no_file codeB64 :
    env !! "CODE" = Some codeB64 -> codeB64 <> EmptyString ->
    can_write w sourceFile = false ->
    path env w (0, printError "compilation_error" "Failed to write source file" 0 0
                     (log (EvOpenWrite sourceFile false) start))
| path_no_compiler codeB64 :
    env !! "CODE" = Some codeB64 -> codeB64 <> EmptyString ->
    can_write w sourceFile = true ->
    popen_r w compileCmd (files (written (Base64.base64_decode codeB64))) = None ->
    path env w (0, printError "compilation_error" "Failed to start compiler" 0 0
                     (log (EvPopen compileCmd false) (written (Base64.base64_decode codeB64))))
| path_compile_error codeB64 buffers status :
    env !! "CODE" = Some codeB64 -> codeB64 <> EmptyString ->
    can_write w sourceFile = true ->
    popen_r w compileCmd (files (written (Base64.base64_decode codeB64))) = Some (buffers, status) ->
    status <> 0 ->
    path env w (0, printError "compilation_error"
                     (String.concat EmptyString (map c_str buffers))
                     (int_wrap (compile_elapsed_ms w)) 0
                     (compiled (Base64.base64_decode codeB64) status))
| path_compiled codeB64 buffers :
    env !! "CODE" = Some codeB64 -> codeB64 <> EmptyString ->
    can_write w sourceFile = true ->
    popen_r w compileCmd (files (written (Base64.base64_decode codeB64))) = Some (buffers, 0) ->
    path env w (0, printSuccess (int_wrap (compile_elapsed_ms w)) (getMemoryUsage w)
                     (compiled (Base64.base64_decode codeB64) 0)).

(** ** Inputs used in the examples *)

(** The base64 text of the program [int main(){}]. *)
Definition empty_program_b64 : string := "aW50IG1haW4oKXt9".

(** The same text followed by a character outside the alphabet. *)
Definition tainted_program_b64 : string := "aW50IG1haW4oKXt9!".

Definition one_test : TestCase :=
  {| tc_input := "1"; tc_expected_output := "1";
     tc_time_limit_ms := None; tc_memory_limit_kb := None |}.

(** The base64 text of the program [int main(){return 0;}]. *)
Definition other_program_b64 : string := "aW50IG1haW4oKXtyZXR1cm4gMDt9".

(** A TEST_CASES text that is no structured list. *)
Definition garbled_tests : string := "{not json".

(** An environment with the given CODE and TEST_CASES values. *)
Definition env_of (code tests : option string) : gmap string string :=
  partial_alter (fun _ => tests) "TEST_CASES" (partial_alter (fun _ => code) "CODE" ∅).

(** ** Properties of pairs of runs *)

(** Two runs use different temporary paths: no source path one opens is
    opened by the other, and the executable paths their compiler commands
    name differ. *)
Definition paths_differ (r1 r2 : Z * Proc) : Prop :=
  (forall p1 p2,
      In p1 (opened_paths (trace (snd r1))) -> In p2 (opened_paths (trace (snd r2))) ->
      p1 <> p2)
  /\ (forall exe1 src1 exe2 src2,
         In (compile_command exe1 src1) (started_commands (trace (snd r1))) ->
         In (compile_command exe2 src2) (started_commands (trace (snd r2))) ->
         exe1 <> exe2).

(** ** Reference encodings

    The inverses the decoder and the escaping are measured against. *)

(** The alphabet character of a 6-bit value. *)
Definition enc_char (i : Z) : ascii := Base64.char_at Base64.base64_chars (Z.to_nat i).

(** Standard base64 with padding: three bytes give four characters; a tail
    of two bytes gives three characters and one '=', a tail of one byte two
    characters and two '='. *)
Fixpoint encode_bytes (l : list Z) : string :=
  match l with
  | a :: b :: c :: rest =>
      String (enc_char (a / 4))
        (String (enc_char (a mod 4 * 16 + b / 16))
           (String (enc_char (b mod 16 * 4 + c / 64))
              (String (enc_char (c mod 64)) (encode_bytes rest))))
  | [a; b] =>
      String (enc_char (a / 4))
        (String (enc_char (a mod 4 * 16 + b / 16))
           (String (enc_char (b mod 16 * 4)) "="))
  | [a] =>
      String (enc_char (a / 4)) (String (enc_char (a mod 4 * 16)) "==")
  | [] => EmptyString
  end.

Definition bytes_of_string (s : string) : list Z :=
  map (fun c => Z.of_nat (uchar c)) (list_ascii_of_string s).

Definition base64_encode (s : string) : string := encode_bytes (bytes_of_string s).

(** Reading back an escaped text: a backslash introduces one of the five
    escapes of [escapeJson]; a bare double quote or any other escape is
    rejected. *)
Fixpoint unescapeJson (s : string) : option string :=
  match s with
  | EmptyString => Some EmptyString
  | String c rest =>
      if Ascii.eqb c (ascii_of_nat 92) then
        match rest with
        | EmptyString => None
        | String d rest' =>
            match unescapeJson rest' with
            | None => None
            | Some t =>
                if Ascii.eqb d (ascii_of_nat 34) then Some (String (ascii_of_nat 34) t)
                else if Ascii.eqb d (ascii_of_nat 92) then Some (String (ascii_of_nat 92) t)
                else if Ascii.eqb d "n" then Some (String (ascii_of_nat 10) t)
                else if Ascii.eqb d "r" then Some (String (ascii_of_nat 13) t)
                else if Ascii.eqb d "t" then Some (String (ascii_of_nat 9) t)
                else None
            end
        end
      else if Ascii.eqb c (ascii_of_nat 34) then None
      else match unescapeJson rest with
           | None => None
           | Some t => Some (String c t)
           end
  end.

(** Whether a character occurs in a text. *)
Fixpoint occurs (c : ascii) (s : string) : bool :=
  match s with
  | EmptyString => false
  | String x rest => Ascii.eqb x c || occurs c rest
  end.

(** The five characters [escapeJson] rewrites. *)
Definition is_special (c : ascii) : bool :=
  Ascii.eqb c (ascii_of_nat 34) || Ascii.eqb c (ascii_of_nat 92)
  || Ascii.eqb c (ascii_of_nat 10) || Ascii.eqb c (ascii_of_nat 13)
  || Ascii.eqb c (ascii_of_nat 9).

Fixpoint has_special (s : string) : bool :=
  match s with
  | EmptyString => false
  | String c rest => is_special c || has_special rest
  end.

(** Whether a line of /proc/self/status is the resident-set line. *)
Definition is_VmRSS (line : string) : bool := String.eqb (substring 0 6 line) "VmRSS:".

(** ** Machines used in the memory examples *)

(** A machine with a cgroup peak file holding [bytes]. *)
Definition cgroup_world (bytes : Z) : World :=
  {| can_write := fun _ => true;
     popen_r := fun _ _ => Some ([], 0);
     compile_elapsed_ms := 0;
     cgroup_memory_peak := Some "peak";
     proc_self_status := ["Name:   runner"; "VmRSS:   999 kB"];
     read_long := fun text => if String.eqb text "peak" then bytes else 999 |}.

(** A machine without cgroup file, with the given /proc/self/status, where
    the text after the VmRSS label reads as [kb]. *)
Definition proc_world (lines : list string) (kb : Z) : World :=
  {| can_write := fun _ => true;
     popen_r := fun _ _ => Some ([], 0);
     compile_elapsed_ms := 0;
     cgroup_memory_peak := None;
     proc_self_status := lines;
     read_long := fun text => if String.eqb text "   4321 kB" then kb else 0 |}.

(** The machine [w] with a compiler that prints nothing when it returns 0. *)
Definition quiet_on_success (w : World) : World :=
  {| can_write := can_write w;
     popen_r := fun cmd fs =>
                  match popen_r w cmd fs with
                  | Some (_, 0) => Some ([], 0)
                  | other => other
                  end;
     compile_elapsed_ms := compile_elapsed_ms w;
     cgroup_memory_peak := cgroup_memory_peak w;
     proc_self_status := proc_self_status w;
     read_long := read_long w |}.

(** A machine where the source file cannot be opened. *)
Definition read_only_world : World :=
  {| can_write := fun _ => false;
     popen_r := fun _ _ => Some ([], 0);
     compile_elapsed_ms := 3;
     cgroup_memory_peak := None;
     proc_self_status := [];
     read_long := fun _ => 0 |}.

(** A machine where no pipe to the compiler can be created. *)
Definition no_compiler_world : World :=
  {| can_write := fun _ => true;
     popen_r := fun _ _ => None;
     compile_elapsed_ms := 3;
     cgroup_memory_peak := None;
     proc_self_status := [];
     read_long := fun _ => 0 |}.

(** ** The text of an error record around its message *)

(** The line [printError] writes for the status compilation_error, with
    [escaped] standing where the escaped message goes. *)
Definition error_frame (escaped : string) (compilationTimeMs executionTimeMs : Z) : string :=
  "{" +:+ dq +:+ "status" +:+ dq +:+ ":" +:+ dq +:+ "compilation_error" +:+ dq +:+ ","
  +:+ dq +:+ "error_message" +:+ dq +:+ ":" +:+ dq +:+ escaped +:+ dq +:+ ","
  +:+ dq +:+ "compilation_time_ms" +:+ dq +:+ ":" +:+ dec compilationTimeMs +:+ ","
  +:+ dq +:+ "execution_time_ms" +:+ dq +:+ ":" +:+ dec executionTimeMs +:+ ","
  +:+ dq +:+ "memory_used_kb" +:+ dq +:+ ":0,"
  +:+ dq +:+ "tests_passed" +:+ dq +:+ ":0,"
  +:+ dq +:+ "tests_total" +:+ dq +:+ ":0}".

(** [part] occurs inside [text]. *)
Definition contains (text part : string) : Prop :=
  exists before after, text = before +:+ part +:+ after.

(** A compiler output with a NUL byte in its first line, as [fgets] reads
    it: two buffers, one per line. *)
Definition nul : string := String zero EmptyString.

Definition output_with_nul : list string :=
  ["abc" +:+ nul +:+ "def" +:+ nl; "ghi" +:+ nl].

(** ** The process as the caller sees it

    [main] above is the run on a machine where the compiler subprocess ends
    and standard output takes what is written. The source waits for the
    compiler without a bound ([fgets] until end of file, then [pclose]),
    never looks at the state of [std::cout] and catches nothing; a
    [Machine] adds what [World] leaves out, and [run] is the process seen
    from outside. *)

(** What becomes of a write to standard output. *)
Inductive Channel : Type :=
| Delivers   (* the bytes reach the reader *)
| Refuses    (* the write fails (descriptor closed, disk full): nothing
                reaches the reader, the stream goes bad, the program goes on *)
| Breaks.    (* the reader is gone: the write raises SIGPIPE, which ends
                the process *)

Record Machine : Type := {
  observed : World;            (* what the run observes if the compiler ends *)
  compiler_returns : bool;     (* whether the compiler ever closes its pipe *)
  channel : Channel
}.

Inductive Outcome : Type :=
| Returned (code : Z) (delivered : string)   (* [main] returned [code] *)
| Blocked                                     (* waits for the compiler for ever *)
| Signalled (signal : Z) (delivered : string).

(** Whether a run got a pipe to the compiler. *)
Fixpoint compiler_started (tr : list Event) : bool :=
  match tr with
  | [] => false
  | EvPopen _ true :: _ => true
  | _ :: rest => compiler_started rest
  end.

Definition SIGPIPE : Z := 13.

(** Every write of [main] comes after [pclose], as its last statement
    before [return 0]: a run that waits for the compiler for ever has
    written nothing, and a run that gets past the compiler writes once. *)
Definition run (env : gmap string string) (m : Machine) : Outcome :=
  let result := main env (observed m) in
  if compiler_started (trace (snd result)) && negb (compiler_returns m) then Blocked
  else match channel m with
       | Delivers => Returned (fst result) (cout (snd result))
       | Refuses => Returned (fst result) EmptyString
       | Breaks => Signalled SIGPIPE EmptyString
       end.

(** What reached the output channel. *)
Definition delivered (o : Outcome) : string :=
  match o with
  | Returned _ text => text
  | Blocked => EmptyString
  | Signalled _ text => text
  end.

(** A machine whose compiler never ends, and one whose standard output is
    closed. *)
Definition hanging_machine : Machine :=
  {| observed := simple_world [] 0 7; compiler_returns := false; channel := Delivers |}.

Definition closed_output_machine : Machine :=
  {| observed := simple_world [] 0 7; compiler_returns := true; channel := Refuses |}.

Definition sound_machine : Machine :=
  {| observed := simple_world [] 0 7; compiler_returns := true; channel := Delivers |}.

(** * Properties *)

(** ** The decoder *)

Module Base64Facts.
Import Base64.

Example base64_decode_hello : base64_decode "aGVsbG8=" = "hello".
Proof. vm_compute. reflexivity. Qed.

Example base64_decode_stops : base64_decode "aGVs!bG8=" = "hel".
Proof. vm_compute. reflexivity. Qed.

(** The table built by the initialisation loop holds the 6-bit value of each
    alphabet character and -1 everywhere else. *)
Lemma T_at_spec (c : ascii) :
  T_at c = if is_alphabet c then sextet c else -1.
Proof.
  destruct c as [[] [] [] [] [] [] [] []]; vm_compute; reflexivity.
Qed.

Lemma sextet_range (c : ascii) : is_alphabet c = true -> 0 <= sextet c < 64.
Proof.
  destruct c as [[] [] [] [] [] [] [] []]; vm_compute; intuition congruence.
Qed.

Lemma T_at_valid (c : ascii) :
  is_alphabet c = true -> (T_at c =? -1) = false /\ T_at c = sextet c.
Proof.
  intros H. pose proof (sextet_range c H). rewrite T_at_spec, H. split; [lia | reflexivity].
Qed.

Lemma T_at_invalid (c : ascii) : is_alphabet c = false -> (T_at c =? -1) = true.
Proof. intros H. rewrite T_at_spec, H. reflexivity. Qed.

(** The accumulator after one character: its low six bits are the new
    6-bit value, whatever wrapped around above them. *)
Lemma push_low (val t : Z) : 0 <= t < 64 -> push val t mod 64 = t.
Proof.
  intros Ht. unfold push, int_wrap. rewrite Z.shiftl_mul_pow2 by lia.
  change (2 ^ 6) with 64. change (2 ^ 31) with 2147483648. change (2 ^ 32) with 4294967296.
  Z.to_euclidean_division_equations. lia.
Qed.

Lemma push_byte (val a t k : Z) :
  val mod 64 = a -> 0 <= t < 64 -> 0 <= k <= 4 ->
  Z.land (Z.shiftr (push val t) k) 255 = ((a * 64 + t) / 2 ^ k) mod 256.
Proof.
  intros Ha Ht Hk. rewrite (Z.land_ones _ 8) by lia. rewrite Z.shiftr_div_pow2 by lia.
  unfold push, int_wrap. rewrite Z.shiftl_mul_pow2 by lia.
  change (2 ^ 6) with 64. change (2 ^ 31) with 2147483648. change (2 ^ 32) with 4294967296.
  change (2 ^ 8) with 256.
  assert (Hc : k = 0 \/ k = 1 \/ k = 2 \/ k = 3 \/ k = 4) by lia.
  destruct Hc as [-> | [-> | [-> | [-> | ->]]]]; cbn [Z.pow Z.pow_pos Pos.iter Z.mul Pos.mul];
    Z.to_euclidean_division_equations; lia.
Qed.

Lemma decode_loop_invalid c rest val valb decoded :
  is_alphabet c = false -> decode_loop (String c rest) val valb decoded = decoded.
Proof. intros H. cbn [decode_loop]. rewrite (T_at_invalid c H). reflexivity. Qed.

Lemma decode_loop_valid c rest val valb decoded :
  is_alphabet c = true ->
  decode_loop (String c rest) val valb decoded =
  if 0 <=? valb + 6
  then decode_loop rest (push val (sextet c)) (valb + 6 - 8)
         (decoded +:+ String (char_of_Z (Z.land (Z.shiftr (push val (sextet c)) (valb + 6)) 255))
                        EmptyString)
  else decode_loop rest (push val (sextet c)) (valb + 6) decoded.
Proof.
  intros H. destruct (T_at_valid c H) as [Hne Heq]. cbn [decode_loop].
  rewrite Hne, Heq. reflexivity.
Qed.

Lemma append_cons (c : ascii) (s t : string) : String c s +:+ t = String c (s +:+ t).
Proof. reflexivity. Qed.

Lemma append_nil_l (t : string) : EmptyString +:+ t = t.
Proof. reflexivity. Qed.

Lemma append_nil_r (s : string) : s +:+ EmptyString = s.
Proof. induction s as [|c s IH]; [reflexivity | now rewrite append_cons, IH]. Qed.

Lemma append_assoc (a b c : string) : (a +:+ b) +:+ c = a +:+ (b +:+ c).
Proof. induction a as [|x a IH]; [reflexivity | now rewrite !append_cons, IH]. Qed.

(** The three bytes of a full group and the bytes of a short tail, as the
    loop extracts them from the accumulator. *)
Lemma byte1 val a b :
  0 <= a < 64 -> 0 <= b < 64 ->
  Z.land (Z.shiftr (push (push val a) b) 4) 255 = a * 4 + b / 16.
Proof.
  intros Ha Hb. rewrite (push_byte _ a b 4) by (auto using push_low || lia).
  change (2 ^ 4) with 16. Z.to_euclidean_division_equations. lia.
Qed.

Lemma byte2 val b c :
  0 <= b < 64 -> 0 <= c < 64 ->
  Z.land (Z.shiftr (push (push val b) c) 2) 255 = b mod 16 * 16 + c / 4.
Proof.
  intros Hb Hc. rewrite (push_byte _ b c 2) by (auto using push_low || lia).
  change (2 ^ 2) with 4. Z.to_euclidean_division_equations. lia.
Qed.

Lemma byte3 val c d :
  0 <= c < 64 -> 0 <= d < 64 ->
  Z.land (Z.shiftr (push (push val c) d) 0) 255 = c mod 4 * 64 + d.
Proof.
  intros Hc Hd. rewrite (push_byte _ c d 0) by (auto using push_low || lia).
  change (2 ^ 0) with 1. Z.to_euclidean_division_equations. lia.
Qed.

(** From a group boundary ([valb = -8]) the loop appends exactly the bytes
    of the alphabet prefix, whatever the accumulator holds. *)
Lemma decode_loop_groups (n : nat) :
  forall (s : string) (val : Z) (decoded : string),
    (String.length s <= n)%nat ->
    decode_loop s val (-8) decoded =
    decoded +:+ string_of_bytes (decode_groups (sextets (alphabet_prefix s))).
Proof.
  induction n as [n IH] using lt_wf_ind. intros s val decoded Hn.
  destruct s as [|c1 s]; [cbn; now rewrite append_nil_r|].
  destruct (is_alphabet c1) eqn:H1;
    [|rewrite decode_loop_invalid by assumption; cbn; rewrite H1; cbn; now rewrite append_nil_r].
  rewrite decode_loop_valid by assumption. cbn [alphabet_prefix]. rewrite H1.
  change (0 <=? -8 + 6) with false. cbv iota. change (-8 + 6) with (-2).
  pose proof (sextet_range c1 H1) as R1.
  destruct s as [|c2 s]; [cbn; now rewrite append_nil_r|].
  destruct (is_alphabet c2) eqn:H2;
    [|rewrite decode_loop_invalid by assumption; cbn; rewrite H2; cbn; now rewrite append_nil_r].
  rewrite decode_loop_valid by assumption. cbn [alphabet_prefix]. rewrite H2.
  change (0 <=? -2 + 6) with true. cbv iota. change (-2 + 6 - 8) with (-4). change (-2 + 6) with 4.
  pose proof (sextet_range c2 H2) as R2. rewrite byte1 by assumption.
  destruct s as [|c3 s]; [cbn; reflexivity|].
  destruct (is_alphabet c3) eqn:H3;
    [|rewrite decode_loop_invalid by assumption; cbn; rewrite H3; cbn; reflexivity].
  rewrite decode_loop_valid by assumption. cbn [alphabet_prefix]. rewrite H3.
  change (0 <=? -4 + 6) with true. cbv iota. change (-4 + 6 - 8) with (-6). change (-4 + 6) with 2.
  pose proof (sextet_range c3 H3) as R3. rewrite byte2 by assumption.
  destruct s as [|c4 s]; [cbn; now rewrite !append_assoc, ?append_cons, ?append_nil_l|].
  destruct (is_alphabet c4) eqn:H4;
    [|rewrite decode_loop_invalid by assumption; cbn; rewrite H4; cbn; now rewrite !append_assoc, ?append_cons, ?append_nil_l].
  rewrite decode_loop_valid by assumption. cbn [alphabet_prefix]. rewrite H4.
  change (0 <=? -6 + 6) with true. cbv iota. change (-6 + 6 - 8) with (-8). change (-6 + 6) with 0.
  pose proof (sextet_range c4 H4) as R4. rewrite byte3 by assumption.
  cbn [String.length] in Hn.
  rewrite (IH (String.length s)) by lia.
  cbn. rewrite !append_assoc, !append_cons, !append_nil_l. reflexivity.
Qed.

Lemma alphabet_prefix_app_invalid (p rest : string) (c : ascii) :
  is_alphabet c = false ->
  alphabet_prefix (p +:+ String c rest) = alphabet_prefix p.
Proof.
  intros Hc. induction p as [|x p IH].
  - rewrite append_nil_l. cbn [alphabet_prefix]. now rewrite Hc.
  - rewrite append_cons. cbn [alphabet_prefix].
    destruct (is_alphabet x); [now rewrite IH | reflexivity].
Qed.

Lemma alphabet_prefix_valid (s : string) (c : ascii) :
  In c (list_ascii_of_string (alphabet_prefix s)) -> is_alphabet c = true.
Proof.
  induction s as [|x s IH]; cbn; [tauto|].
  destruct (is_alphabet x) eqn:Hx; cbn; [|tauto].
  intros [<- | H]; auto.
Qed.

(** The prefix really is the longest alphabet-only one: it starts the input,
    and the input continues, if at all, with a character outside the
    alphabet. *)
Lemma alphabet_prefix_longest (s : string) :
  exists rest, s = alphabet_prefix s +:+ rest
    /\ match rest with EmptyString => True | String c _ => is_alphabet c = false end.
Proof.
  induction s as [|x s [rest [Heq Hrest]]].
  - exists EmptyString. split; [reflexivity | exact I].
  - cbn [alphabet_prefix]. destruct (is_alphabet x) eqn:Hx.
    + exists rest. split; [rewrite append_cons; congruence | exact Hrest].
    + exists (String x s). split; [reflexivity | exact Hx].
Qed.

Lemma base64_decode_groups (s : string) :
  base64_decode s = string_of_bytes (decode_groups (sextets (alphabet_prefix s))).
Proof.
  unfold base64_decode. rewrite (decode_loop_groups (String.length s)) by lia.
  apply append_nil_l.
Qed.

Lemma alphabet_prefix_idem (s : string) :
  alphabet_prefix (alphabet_prefix s) = alphabet_prefix s.
Proof.
  induction s as [|x s IH]; [reflexivity|]. cbn [alphabet_prefix].
  destruct (is_alphabet x) eqn:Hx; [|reflexivity]. cbn [alphabet_prefix]. now rewrite Hx, IH.
Qed.

(** C9: [base64_decode] is defined on every string (it recurses on the
    input, one character per step) and returns the bytes that base64 assigns
    to the longest prefix of alphabet characters, the groups of four 6-bit
    values read most significant bits first; the first character outside the
    alphabet, the padding character '=' included, ends the decoding, and the
    result is then the plain string decoded so far, the same value a shorter
    input without that character and its tail gives. *)
Theorem base64_decode_longest_prefix :
  forall encoded : string,
    base64_decode encoded
    = string_of_bytes (decode_groups (sextets (alphabet_prefix encoded)))
    /\ base64_decode encoded = base64_decode (alphabet_prefix encoded)
    /\ (forall (p rest : string) (c : ascii),
          T_at c = -1 \/ is_alphabet c = false ->
          encoded = p +:+ String c rest -> base64_decode encoded = base64_decode p)
    /\ (forall p rest : string,
          encoded = p +:+ String (ascii_of_nat 61) rest -> base64_decode encoded = base64_decode p).
Proof.
  intros encoded.
  pose proof base64_decode_groups as Hmain. pose proof alphabet_prefix_idem as Hidem.
  assert (Hstop : forall p rest c, is_alphabet c = false ->
                    base64_decode (p +:+ String c rest) = base64_decode p).
  { intros p rest c Hc. now rewrite !Hmain, alphabet_prefix_app_invalid. }
  split; [apply Hmain|]. split; [now rewrite (Hmain (alphabet_prefix encoded)), Hidem|].
  split.
  - intros p rest c Hc ->. apply Hstop. destruct Hc as [Hc | Hc]; [|exact Hc].
    rewrite T_at_spec in Hc. destruct (is_alphabet c) eqn:Ha; [|reflexivity].
    pose proof (sextet_range c Ha). lia.
  - intros p rest ->. apply Hstop. reflexivity.
Qed.

Lemma base64_decode_longest_prefix_witness :
  base64_decode "aGVs!bG8=" = base64_decode "aGVs"
  /\ base64_decode "aGVsbG8=" = base64_decode "aGVsbG8".
Proof.
  split.
  - apply (proj1 (proj2 (proj2 (base64_decode_longest_prefix "aGVs!bG8="))) "aGVs" "bG8="
             (ascii_of_nat 33)); [right; reflexivity | reflexivity].
  - apply (proj2 (proj2 (proj2 (base64_decode_longest_prefix "aGVsbG8="))) "aGVsbG8" EmptyString).
    reflexivity.
Defined.

End Base64Facts.

(** ** Text lemmas *)

Section Text.

Import Base64Facts.

Lemma has_nl_app (a b : string) : has_nl (a +:+ b) = has_nl a || has_nl b.
Proof.
  induction a as [|c a IH]; [reflexivity|].
  rewrite append_cons. cbn [has_nl]. rewrite IH. now rewrite orb_assoc.
Qed.

Lemma has_nl_escapeJson (s : string) : has_nl (escapeJson s) = false.
Proof.
  induction s as [|c s IH]; [reflexivity|].
  cbn [escapeJson]. rewrite has_nl_app, IH, orb_false_r.
  destruct (Ascii.eqb c (ascii_of_nat 34)); [reflexivity|].
  destruct (Ascii.eqb c (ascii_of_nat 92)); [reflexivity|].
  destruct (Ascii.eqb c (ascii_of_nat 10)) eqn:Hnl; [reflexivity|].
  destruct (Ascii.eqb c (ascii_of_nat 13)); [reflexivity|].
  destruct (Ascii.eqb c (ascii_of_nat 9)); [reflexivity|].
  cbn [has_nl]. now rewrite Hnl.
Qed.

Lemma has_nl_digits (d : Decimal.uint) : has_nl (NilEmpty.string_of_uint d) = false.
Proof.
  induction d as [| d IH | d IH | d IH | d IH | d IH | d IH | d IH | d IH | d IH | d IH];
    [reflexivity | cbn [NilEmpty.string_of_uint has_nl]; rewrite IH; reflexivity ..].
Qed.

Lemma has_nl_uint (d : Decimal.uint) : has_nl (NilZero.string_of_uint d) = false.
Proof. destruct d; [reflexivity | apply has_nl_digits ..]. Qed.

Lemma has_nl_dec (z : Z) : has_nl (dec z) = false.
Proof.
  unfold dec. destruct (Z.to_int z) as [d | d]; cbn [NilZero.string_of_int has_nl];
    rewrite has_nl_uint; reflexivity.
Qed.

Lemma lines_from_no_nl (text : string) :
  forall cur, has_nl text = false -> lines_from cur (text +:+ nl) = [cur +:+ text].
Proof.
  induction text as [|c text IH]; intros cur H.
  - rewrite append_nil_l, append_nil_r. reflexivity.
  - cbn [has_nl] in H. apply orb_false_iff in H as [Hc Ht].
    rewrite append_cons. cbn [lines_from]. rewrite Hc, IH by assumption.
    now rewrite append_assoc.
Qed.

Lemma lines_one (text : string) : has_nl text = false -> lines (text +:+ nl) = [text].
Proof. intros H. unfold lines. now rewrite lines_from_no_nl. Qed.

Lemma foldl_append (l : list string) :
  forall acc, foldl (fun acc buffer => acc +:+ buffer) acc l = acc +:+ String.concat EmptyString l.
Proof.
  induction l as [|x l IH]; intros acc; cbn [foldl].
  - now rewrite append_nil_r.
  - rewrite IH. destruct l as [|y l].
    + cbn. now rewrite !append_nil_r.
    + cbn [String.concat]. now rewrite append_assoc.
Qed.

(** Undoing the escapes of an escaped text gives the text back. *)
Lemma unescape_escapeJson (s : string) : unescapeJson (escapeJson s) = Some s.
Proof.
  induction s as [|c s IH]; [reflexivity|]. cbn [escapeJson].
  destruct (Ascii.eqb c (ascii_of_nat 34)) eqn:H34.
  { apply Ascii.eqb_eq in H34 as ->.
    transitivity (match unescapeJson (escapeJson s) with
                  | Some t => Some (String (ascii_of_nat 34) t) | None => None end);
      [reflexivity | now rewrite IH]. }
  destruct (Ascii.eqb c (ascii_of_nat 92)) eqn:H92.
  { apply Ascii.eqb_eq in H92 as ->.
    transitivity (match unescapeJson (escapeJson s) with
                  | Some t => Some (String (ascii_of_nat 92) t) | None => None end);
      [reflexivity | now rewrite IH]. }
  destruct (Ascii.eqb c (ascii_of_nat 10)) eqn:H10.
  { apply Ascii.eqb_eq in H10 as ->.
    transitivity (match unescapeJson (escapeJson s) with
                  | Some t => Some (String (ascii_of_nat 10) t) | None => None end);
      [reflexivity | now rewrite IH]. }
  destruct (Ascii.eqb c (ascii_of_nat 13)) eqn:H13.
  { apply Ascii.eqb_eq in H13 as ->.
    transitivity (match unescapeJson (escapeJson s) with
                  | Some t => Some (String (ascii_of_nat 13) t) | None => None end);
      [reflexivity | now rewrite IH]. }
  destruct (Ascii.eqb c (ascii_of_nat 9)) eqn:H9.
  { apply Ascii.eqb_eq in H9 as ->.
    transitivity (match unescapeJson (escapeJson s) with
                  | Some t => Some (String (ascii_of_nat 9) t) | None => None end);
      [reflexivity | now rewrite IH]. }
  change (unescapeJson (String c (escapeJson s)) = Some (String c s)).
  cbn [unescapeJson]. now rewrite H92, H34, IH.
Qed.

Lemma foldl_c_str (l : list string) :
  forall acc, foldl (fun acc buffer => acc +:+ c_str buffer) acc l
              = foldl (fun acc buffer => acc +:+ buffer) acc (map c_str l).
Proof. induction l as [|x l IH]; intros acc; cbn [foldl map]; [reflexivity | apply IH]. Qed.

Lemma c_str_no_nul (s : string) : occurs zero s = false -> c_str s = s.
Proof.
  induction s as [|c s IH]; [reflexivity|]. cbn [occurs c_str].
  intros H. apply orb_false_iff in H as [Hc Hs]. now rewrite Hc, IH.
Qed.

Lemma map_c_str_no_nul (l : list string) :
  Forall (fun buffer => occurs zero buffer = false) l -> map c_str l = l.
Proof.
  induction 1 as [|x l Hx _ IH]; [reflexivity|]. cbn [map]. now rewrite c_str_no_nul, IH.
Qed.

Lemma string_length_app (a b : string) :
  String.length (a +:+ b) = (String.length a + String.length b)%nat.
Proof.
  induction a as [|c a IH]; [reflexivity|].
  rewrite append_cons. cbn [String.length]. now rewrite IH.
Qed.

End Text.

(** ** The paths through [main] *)

Section Paths.

Import Base64 Base64Facts.

(** The text [printError] writes is the rendering of its record, for a
    status that needs no escaping (the only one [main] passes). *)
Lemma error_text_render (status message : string) (c e : Z) :
  escapeJson status = status ->
  error_text status message c e = render (error_report status message c e).
Proof.
  intros Hs. unfold error_text, error_report. cbn [render map join foldl fst snd].
  rewrite Hs. rewrite !append_assoc. reflexivity.
Qed.

Lemma success_text_render (c m : Z) :
  success_text c m = render (success_report c m).
Proof.
  unfold success_text, success_report. cbn [render map join foldl fst snd].
  rewrite !append_assoc. reflexivity.
Qed.

Lemma error_text_no_nl (status message : string) (c e : Z) :
  has_nl status = false -> has_nl (error_text status message c e) = false.
Proof.
  intros Hs. unfold error_text.
  rewrite !has_nl_app, Hs, has_nl_escapeJson, !has_nl_dec. reflexivity.
Qed.

Lemma success_text_no_nl (c m : Z) : has_nl (success_text c m) = false.
Proof. unfold success_text. rewrite !has_nl_app, !has_nl_dec. reflexivity. Qed.

Lemma main_path (env : gmap string string) (w : World) : path env w (main env w).
Proof.
  unfold main. destruct (env !! "CODE") as [codeB64|] eqn:Hcode;
    [|apply path_no_code; now left].
  destruct (String.length codeB64 =? 0)%nat eqn:Hlen.
  { apply Nat.eqb_eq in Hlen. destruct codeB64; [|discriminate].
    apply path_no_code. now right. }
  assert (Hne : codeB64 <> EmptyString).
  { intros ->. discriminate. }
  destruct (can_write w sourceFile) eqn:Hopen; cbn [negb];
    [|eapply path_no_file; eauto].
  fold (written (base64_decode codeB64)).
  destruct (popen_r w compileCmd (files (written (base64_decode codeB64))))
    as [[buffers status]|] eqn:Hpipe; [|eapply path_no_compiler; eauto].
  fold (compiled (base64_decode codeB64) status).
  rewrite foldl_c_str, foldl_append, append_nil_l.
  destruct (status =? 0) eqn:Hst; cbn [negb].
  - apply Z.eqb_eq in Hst. subst status. eapply path_compiled; eauto.
  - apply Z.eqb_neq in Hst. eapply path_compile_error; eauto.
Qed.

End Paths.

(** ** The report of a run *)

Section Judge.

Import Base64 Base64Facts.

Ltac by_path env w :=
  generalize (main_path env w); generalize (main env w);
  let o := fresh "o" in let P := fresh "P" in intros o P; destruct P.

Ltac run_state :=
  cbn [fst snd printError printSuccess emit log written write_file compiled start
       cout trace reports files app].

Lemma main_depends_on_code (env1 env2 : gmap string string) (w : World) :
  env1 !! "CODE" = env2 !! "CODE" -> main env1 w = main env2 w.
Proof. intros H. unfold main. rewrite H. reflexivity. Qed.

(** C2: when CODE is absent or the empty string, the run prints the
    "No code provided" record: status compilation_error, no test passed,
    no test counted, both timings zero; nothing was written to disk and no
    subprocess (compiler or test) was started; the exit code is 0. *)
Theorem no_code_is_compilation_error (env : gmap string string) (w : World) :
  env !! "CODE" = None \/ env !! "CODE" = Some EmptyString ->
  fst (main env w) = 0
  /\ exists r,
      reports (snd (main env w)) = [r]
      /\ cout (snd (main env w)) = render r +:+ nl
      /\ field "status" r = Some (JStr "compilation_error")
      /\ field "tests_passed" r = Some (JNum 0)
      /\ field "tests_total" r = Some (JNum 0)
      /\ field "compilation_time_ms" r = Some (JNum 0)
      /\ field "execution_time_ms" r = Some (JNum 0)
      /\ trace (snd (main env w)) = []
      /\ files (snd (main env w)) = ∅.
Proof.
  intros Hcode. by_path env w;
    try (exfalso; destruct Hcode as [Hc | Hc]; congruence).
  run_state. split; [reflexivity|].
  eexists. split; [reflexivity|]. rewrite append_nil_l.
  rewrite <- error_text_render by reflexivity.
  repeat split; reflexivity.
Qed.

Lemma no_code_is_compilation_error_witness :
  fst (main ∅ (simple_world [] 0 7)) = 0
  /\ fst (main (env_of (Some EmptyString) (Some "[]")) (simple_world [] 0 7)) = 0.
Proof.
  split.
  - apply (no_code_is_compilation_error ∅ (simple_world [] 0 7)). left. reflexivity.
  - apply (no_code_is_compilation_error (env_of (Some EmptyString) (Some "[]"))
             (simple_world [] 0 7)).
    right. vm_compute. reflexivity.
Defined.




(** On a machine where the compiler ends and the output is taken, [main]
    writes exactly one record, as exactly one line, and returns 0 whatever
    the verdict in that record. *)
Lemma one_record_and_exit_zero (env : gmap string string) (w : World) :
  fst (main env w) = 0
  /\ exists r,
      reports (snd (main env w)) = [r]
      /\ cout (snd (main env w)) = render r +:+ nl
      /\ lines (cout (snd (main env w))) = [render r].
Proof.
  by_path env w; run_state; (split; [reflexivity|]); eexists;
    (split; [reflexivity|]); rewrite append_nil_l;
    first [ rewrite <- error_text_render by reflexivity;
            split; [reflexivity | apply lines_one, error_text_no_nl; reflexivity]
          | rewrite <- success_text_render;
            split; [reflexivity | apply lines_one, success_text_no_nl] ].
Qed.

(** C1, as stated, fails: a submission that compiles and supplies one test
    case gets a report with tests_total 0, no test result and status
    accepted. *)
Lemma tests_counted_counterexample :
  let env := env_of (Some empty_program_b64) (Some (test_cases_text [one_test])) in
  let w := simple_world [] 0 7 in
  pclose_status (trace (snd (main env w))) = Some 0
  /\ env !! "TEST_CASES" = Some (test_cases_text [one_test])
  /\ ~ (exists r, reports (snd (main env w)) = [r]
                  /\ field "tests_total" r = Some (JNum (Z.of_nat (length [one_test])))
                  /\ length (test_results r) = length [one_test])
  /\ (exists r, reports (snd (main env w)) = [r]
                /\ field "tests_total" r = Some (JNum 0)
                /\ field "status" r = Some (JStr "accepted")
                /\ [one_test] <> []).
Proof.
  cbv zeta. split; [vm_compute; reflexivity|]. split; [vm_compute; reflexivity|]. split.
  - intros [r [Hr [Htotal _]]]. vm_compute in Hr. injection Hr as <-.
    vm_compute in Htotal. discriminate.
  - eexists. split; [vm_compute; reflexivity|]. repeat split; [vm_compute; reflexivity .. | discriminate].
Qed.

(** C1, amended: when the compiler returned status 0 the run prints one
    record with status accepted, tests_passed 0, tests_total 0 and an empty
    test_results, so tests_total is the length of test_results; this is so
    whatever TEST_CASES holds: replacing it by any other value gives the
    same record. *)
Theorem compiled_reports_no_tests (env : gmap string string) (w : World) :
  pclose_status (trace (snd (main env w))) = Some 0 ->
  fst (main env w) = 0
  /\ exists r,
      reports (snd (main env w)) = [r]
      /\ cout (snd (main env w)) = render r +:+ nl
      /\ field "status" r = Some (JStr "accepted")
      /\ field "tests_passed" r = Some (JNum 0)
      /\ field "tests_total" r = Some (JNum 0)
      /\ field "test_results" r = Some (JArr [])
      /\ field "tests_total" r = Some (JNum (Z.of_nat (length (test_results r))))
      /\ forall tests : option string,
           reports (snd (main (partial_alter (fun _ => tests) "TEST_CASES" env) w)) = [r].
Proof.
  intros Hst.
  assert (Hind : forall tests : option string,
             main (partial_alter (fun _ => tests) "TEST_CASES" env) w = main env w).
  { intros tests. apply main_depends_on_code. now rewrite lookup_partial_alter_ne. }
  revert Hst Hind. by_path env w; run_state; cbn [pclose_status]; intros Hst Hind;
    try discriminate.
  - injection Hst as ->. congruence.
  - split; [reflexivity|]. eexists. split; [reflexivity|]. rewrite append_nil_l.
    rewrite <- success_text_render.
    repeat split; try reflexivity. intros tests. rewrite Hind. reflexivity.
Qed.

Lemma compiled_reports_no_tests_witness :
  fst (main (env_of (Some empty_program_b64) (Some (test_cases_text [one_test])))
            (simple_world [] 0 7)) = 0.
Proof.
  apply (compiled_reports_no_tests
           (env_of (Some empty_program_b64) (Some (test_cases_text [one_test])))
           (simple_world [] 0 7)).
  vm_compute. reflexivity.
Defined.

(** C4, as stated, fails: a payload that ends in a character outside the
    alphabet is not rejected; its decoded prefix is written and compiled
    and, the compiler accepting it, the record says accepted with a
    compilation time that is not zero. *)
Lemma invalid_base64_counterexample :
  let env := env_of (Some tainted_program_b64) None in
  let w := simple_world [] 0 7 in
  env !! "CODE" = Some tainted_program_b64
  /\ alphabet_prefix tainted_program_b64 <> tainted_program_b64
  /\ ~ (exists r, reports (snd (main env w)) = [r]
                  /\ field "status" r = Some (JStr "compilation_error")
                  /\ field "compilation_time_ms" r = Some (JNum 0)
                  /\ field "execution_time_ms" r = Some (JNum 0))
  /\ reports (snd (main env w)) = [success_report 7 0]
  /\ files (snd (main env w)) !! sourceFile = Some (scaffold +:+ "int main(){}" +:+ nl).
Proof.
  cbv zeta. split; [vm_compute; reflexivity|]. split; [vm_compute; discriminate|]. split.
  - intros [r [Hr [Hstatus _]]]. vm_compute in Hr. injection Hr as <-.
    vm_compute in Hstatus. discriminate.
  - split; vm_compute; reflexivity.
Qed.

(** C4, amended: decoding never fails. For every non-empty payload, with or
    without characters outside the alphabet, [base64_decode] returns the
    bytes of the longest alphabet-only prefix; a run that can open the
    source file writes there the scaffold followed by those bytes and
    starts the compiler on it; and when that prefix is not empty the whole
    run is the run of the prefix alone. The record of such a run has
    execution time 0 and says compilation_error exactly when the source
    file cannot be opened, the compiler cannot be started or the compiler
    returns non-zero (then with the measured compilation time), and
    accepted, with the measured compilation time, when the compiler
    returns 0. *)
Theorem invalid_base64_is_truncated
    (env : gmap string string) (w : World) (codeB64 : string) :
  env !! "CODE" = Some codeB64 ->
  codeB64 <> EmptyString ->
  base64_decode codeB64
  = string_of_bytes (decode_groups (sextets (alphabet_prefix codeB64)))
  /\ (can_write w sourceFile = true ->
      files (snd (main env w)) !! sourceFile
      = Some (scaffold
              +:+ string_of_bytes (decode_groups (sextets (alphabet_prefix codeB64))) +:+ nl)
      /\ started_commands (trace (snd (main env w))) = [compileCmd])
  /\ (alphabet_prefix codeB64 = EmptyString
      \/ main env w = main (<["CODE" := alphabet_prefix codeB64]> env) w)
  /\ exists r,
      reports (snd (main env w)) = [r]
      /\ field "execution_time_ms" r = Some (JNum 0)
      /\ (field "status" r = Some (JStr "compilation_error")
          /\ (can_write w sourceFile = false
              /\ field "compilation_time_ms" r = Some (JNum 0)
              \/ can_write w sourceFile = true
                 /\ popen_r w compileCmd
                      (<[sourceFile := scaffold +:+ base64_decode codeB64 +:+ nl]> ∅) = None
                 /\ field "compilation_time_ms" r = Some (JNum 0)
              \/ can_write w sourceFile = true
                 /\ (exists buffers status,
                        popen_r w compileCmd
                          (<[sourceFile := scaffold +:+ base64_decode codeB64 +:+ nl]> ∅)
                        = Some (buffers, status) /\ status <> 0)
                 /\ field "compilation_time_ms" r
                    = Some (JNum (int_wrap (compile_elapsed_ms w))))
          \/ field "status" r = Some (JStr "accepted")
             /\ can_write w sourceFile = true
             /\ (exists buffers,
                    popen_r w compileCmd
                      (<[sourceFile := scaffold +:+ base64_decode codeB64 +:+ nl]> ∅)
                    = Some (buffers, 0))
             /\ field "compilation_time_ms" r
                = Some (JNum (int_wrap (compile_elapsed_ms w)))).
Proof.
  intros Hcode Hne.
  assert (Hdec : base64_decode codeB64
                 = string_of_bytes (decode_groups (sextets (alphabet_prefix codeB64)))).
  { apply base64_decode_groups. }
  assert (Hsame : alphabet_prefix codeB64 = EmptyString
                  \/ main env w = main (<["CODE" := alphabet_prefix codeB64]> env) w).
  { destruct (alphabet_prefix codeB64) as [|c p] eqn:Hp; [now left | right].
    unfold main. rewrite Hcode, lookup_insert_eq.
    destruct codeB64 as [|c0 s0]; [congruence|]. cbn [String.length Nat.eqb].
    rewrite !base64_decode_groups, Hp.
    replace (alphabet_prefix (String c p)) with (String c p); [reflexivity|].
    rewrite <- Hp. symmetry. apply alphabet_prefix_idem. }
  split; [exact Hdec|]. rewrite <- Hdec.
  revert Hsame. by_path env w; run_state; intros Hsame; simplify_eq.
  - destruct H as [H | H]; congruence.
  - split; [congruence|]. split; [exact Hsame|]. eexists. split; [reflexivity|].
    split; [reflexivity|]. left. split; [reflexivity|]. left. split; [assumption | reflexivity].
  - split; [intros _; split; [apply lookup_insert_eq | reflexivity]|].
    split; [exact Hsame|]. eexists. split; [reflexivity|].
    split; [reflexivity|]. left. split; [reflexivity|]. right. left.
    split; [assumption|]. split; [assumption | reflexivity].
  - split; [intros _; split; [apply lookup_insert_eq | reflexivity]|].
    split; [exact Hsame|]. eexists. split; [reflexivity|].
    split; [reflexivity|]. left. split; [reflexivity|]. right. right.
    split; [assumption|]. split; [|reflexivity]. exists buffers, status. split; assumption.
  - split; [intros _; split; [apply lookup_insert_eq | reflexivity]|].
    split; [exact Hsame|]. eexists. split; [reflexivity|].
    split; [reflexivity|]. right. split; [reflexivity|].
    split; [assumption|]. split; [|reflexivity]. exists buffers. assumption.
Qed.

Lemma invalid_base64_is_truncated_witness :
  base64_decode tainted_program_b64
  = string_of_bytes (decode_groups (sextets (alphabet_prefix tainted_program_b64))).
Proof.
  apply (invalid_base64_is_truncated (env_of (Some tainted_program_b64) None)
           (simple_world [] 0 7) tainted_program_b64).
  - vm_compute. reflexivity.
  - discriminate.
Defined.

(** C5, as stated, fails: with a TEST_CASES text that is no structured list
    and a program that compiles, the record says accepted, not
    compilation_error. *)
Lemma malformed_tests_counterexample :
  let env := env_of (Some empty_program_b64) (Some garbled_tests) in
  let w := simple_world [] 0 7 in
  env !! "TEST_CASES" = Some garbled_tests
  /\ ~ well_formed_tests garbled_tests
  /\ ~ (exists r, reports (snd (main env w)) = [r]
                  /\ field "status" r = Some (JStr "compilation_error"))
  /\ reports (snd (main env w)) = [success_report 7 0].
Proof.
  cbv zeta. split; [vm_compute; reflexivity|]. split; [|split].
  - intros [tests H]. unfold test_cases_text in H. cbn [render] in H.
    rewrite append_cons in H. discriminate.
  - intros [r [Hr Hstatus]]. vm_compute in Hr. injection Hr as <-.
    vm_compute in Hstatus. discriminate.
  - vm_compute. reflexivity.
Qed.

(** C5, amended: the TEST_CASES text is never read, well formed or not: the
    run is the run without TEST_CASES, no test is attempted (the only
    command ever started is the compiler), and the status is
    compilation_error exactly on the runs where the compiler did not return
    0, accepted on the others. *)
Theorem test_cases_text_is_ignored (env : gmap string string) (w : World) (text : string) :
  main (<["TEST_CASES" := text]> env) w = main (delete "TEST_CASES" env) w
  /\ (started_commands (trace (snd (main (<["TEST_CASES" := text]> env) w))) = []
      \/ started_commands (trace (snd (main (<["TEST_CASES" := text]> env) w))) = [compileCmd])
  /\ exists r,
      reports (snd (main (<["TEST_CASES" := text]> env) w)) = [r]
      /\ (field "status" r = Some (JStr "compilation_error")
          /\ pclose_status (trace (snd (main (<["TEST_CASES" := text]> env) w))) <> Some 0
          \/ field "status" r = Some (JStr "accepted")
             /\ pclose_status (trace (snd (main (<["TEST_CASES" := text]> env) w))) = Some 0).
Proof.
  split.
  { apply main_depends_on_code. now rewrite lookup_insert_ne, lookup_delete_ne. }
  by_path (<["TEST_CASES" := text]> env) w; run_state;
    cbn [started_commands pclose_status];
    (split; [auto|]); eexists; (split; [reflexivity|]);
    first [ right; split; reflexivity | left; split; [reflexivity | congruence] ].
Qed.

(** C6: in the one record of every run, tests_passed is the number of
    accepted entries of test_results and tests_total is its length. The
    record is either the success record, whose test_results is the empty
    list, or a compilation_error record, which lists no test result at all
    (it has no test_results key) and has both counts 0. *)
Theorem counts_match_test_results (env : gmap string string) (w : World) :
  exists r,
    reports (snd (main env w)) = [r]
    /\ cout (snd (main env w)) = render r +:+ nl
    /\ field "tests_passed" r = Some (JNum (Z.of_nat (count_accepted (test_results r))))
    /\ field "tests_total" r = Some (JNum (Z.of_nat (length (test_results r))))
    /\ (field "status" r = Some (JStr "accepted")
        /\ field "test_results" r = Some (JArr [])
        \/ field "status" r = Some (JStr "compilation_error")
           /\ field "test_results" r = None
           /\ test_results r = []
           /\ field "tests_passed" r = Some (JNum 0)
           /\ field "tests_total" r = Some (JNum 0)).
Proof.
  by_path env w; run_state; eexists; (split; [reflexivity|]); rewrite append_nil_l;
    (split; [first [ rewrite <- error_text_render by reflexivity; reflexivity
                   | rewrite <- success_text_render; reflexivity ]|]);
    (split; [reflexivity|]); (split; [reflexivity|]);
    first [ left; split; reflexivity | right; repeat split; reflexivity ].
Qed.

(** C8, as stated, fails: two different submissions judged on the same
    machine open the same source path and name the same executable path. *)
Lemma unique_paths_counterexample :
  let env1 := env_of (Some empty_program_b64) None in
  let env2 := env_of (Some other_program_b64) None in
  let w := simple_world [] 0 7 in
  env1 <> env2
  /\ In "/tmp/user_code.cpp" (opened_paths (trace (snd (main env1 w))))
  /\ In "/tmp/user_code.cpp" (opened_paths (trace (snd (main env2 w))))
  /\ In (compile_command "/tmp/user_code" "/tmp/user_code.cpp")
        (started_commands (trace (snd (main env1 w))))
  /\ In (compile_command "/tmp/user_code" "/tmp/user_code.cpp")
        (started_commands (trace (snd (main env2 w))))
  /\ ~ paths_differ (main env1 w) (main env2 w).
Proof.
  cbv zeta.
  assert (H1 : In "/tmp/user_code.cpp"
                 (opened_paths (trace (snd (main (env_of (Some empty_program_b64) None)
                                                  (simple_world [] 0 7)))))).
  { vm_compute. left. reflexivity. }
  assert (H2 : In "/tmp/user_code.cpp"
                 (opened_paths (trace (snd (main (env_of (Some other_program_b64) None)
                                                  (simple_world [] 0 7)))))).
  { vm_compute. left. reflexivity. }
  split; [|split; [exact H1 | split; [exact H2 | split; [|split]]]].
  - intros Heq. apply (f_equal (fun e : gmap string string => e !! "CODE")) in Heq.
    vm_compute in Heq. discriminate.
  - vm_compute. left. reflexivity.
  - vm_compute. left. reflexivity.
  - intros [Hsrc _]. exact (Hsrc _ _ H1 H2 eq_refl).
Qed.

(** C8, amended: the paths are fixed. Whatever the submission and the
    machine, a run opens no file for writing other than /tmp/user_code.cpp
    and starts no command other than the compiler writing /tmp/user_code
    from /tmp/user_code.cpp; any two runs that get that far use the same
    two paths. *)
Theorem temporary_paths_are_fixed (env : gmap string string) (w : World) :
  (opened_paths (trace (snd (main env w))) = []
   \/ opened_paths (trace (snd (main env w))) = ["/tmp/user_code.cpp"])
  /\ (started_commands (trace (snd (main env w))) = []
      \/ started_commands (trace (snd (main env w)))
         = [compile_command "/tmp/user_code" "/tmp/user_code.cpp"])
  /\ forall path : string,
       path = "/tmp/user_code.cpp" \/ files (snd (main env w)) !! path = None.
Proof.
  by_path env w; run_state; cbn [opened_paths started_commands];
    (split; [auto|]); (split; [auto|]); intros path;
    try (right; apply lookup_empty).
  all: destruct (decide (path = sourceFile)) as [-> | Hp]; [left; reflexivity | right];
    rewrite lookup_insert_ne by congruence; apply lookup_empty.
Qed.

(** C10: the run does not depend on TEST_CASES. With the same CODE and the
    same machine (hence the same compiler behaviour), any two TEST_CASES
    settings, present with any text or absent, give the same exit code, the
    same output text and the same trace. *)
Theorem report_independent_of_test_cases
    (env : gmap string string) (w : World) (tests1 tests2 : option string) :
  main (partial_alter (fun _ => tests1) "TEST_CASES" env) w
  = main (partial_alter (fun _ => tests2) "TEST_CASES" env) w
  /\ cout (snd (main (partial_alter (fun _ => tests1) "TEST_CASES" env) w))
     = cout (snd (main (partial_alter (fun _ => tests2) "TEST_CASES" env) w)).
Proof.
  assert (H : main (partial_alter (fun _ => tests1) "TEST_CASES" env) w
              = main (partial_alter (fun _ => tests2) "TEST_CASES" env) w).
  { apply main_depends_on_code. now rewrite !lookup_partial_alter_ne. }
  split; [exact H | now rewrite H].
Qed.

End Judge.

(** ** More on the decoder *)

Module Base64More.
Import Base64 Base64Facts.

Lemma length_append (a b : string) :
  String.length (a +:+ b) = (String.length a + String.length b)%nat.
Proof.
  induction a as [|c a IH]; [reflexivity|].
  rewrite append_cons. cbn [String.length]. now rewrite IH.
Qed.

Lemma length_string_of_bytes (l : list Z) : String.length (string_of_bytes l) = length l.
Proof.
  unfold string_of_bytes. induction l as [|x l IH]; [reflexivity|].
  cbn [map string_of_list_ascii String.length length]. now rewrite IH.
Qed.

Lemma length_sextets (s : string) : length (sextets s) = String.length s.
Proof.
  unfold sextets. induction s as [|c s IH]; [reflexivity|].
  cbn [list_ascii_of_string map length String.length]. now rewrite IH.
Qed.

Lemma length_alphabet_prefix (s : string) :
  (String.length (alphabet_prefix s) <= String.length s)%nat.
Proof.
  induction s as [|c s IH]; [reflexivity|]. cbn [alphabet_prefix].
  destruct (is_alphabet c); cbn [String.length]; lia.
Qed.

Lemma length_decode_groups (n : nat) :
  forall l : list Z, (length l <= n)%nat -> length (decode_groups l) = (length l * 3 / 4)%nat.
Proof.
  induction n as [n IH] using lt_wf_ind. intros l Hn.
  destruct l as [|a [|b [|c [|d rest]]]]; try reflexivity.
  cbn [decode_groups length] in *. rewrite (IH (length rest)) by lia.
  replace (S (S (S (S (length rest)))) * 3)%nat with (3 * 4 + length rest * 3)%nat by lia.
  rewrite Nat.div_add_l by lia. reflexivity.
Qed.

(** X1: the decoder returns three bytes for every four alphabet characters
    of the leading alphabet-only run, rounded down; so the result is never
    longer than three quarters of the input. *)
Theorem decoded_length (encoded : string) :
  String.length (base64_decode encoded)
  = (String.length (alphabet_prefix encoded) * 3 / 4)%nat
  /\ (String.length (base64_decode encoded) * 4 <= String.length encoded * 3)%nat.
Proof.
  assert (H : String.length (base64_decode encoded)
              = (String.length (alphabet_prefix encoded) * 3 / 4)%nat).
  { rewrite base64_decode_groups, length_string_of_bytes.
    rewrite (length_decode_groups (length (sextets (alphabet_prefix encoded)))) by lia.
    now rewrite length_sextets. }
  split; [exact H|]. rewrite H.
  pose proof (length_alphabet_prefix encoded) as Hle.
  pose proof (Nat.Div0.mul_div_le (String.length (alphabet_prefix encoded) * 3) 4). lia.
Qed.

(** The table against the alphabet string. *)
Lemma enc_char_table :
  forallb (fun n => is_alphabet (char_at base64_chars n)
                    && (T_at (char_at base64_chars n) =? Z.of_nat n))
          (seq 0 64) = true.
Proof. vm_compute. reflexivity. Qed.

Lemma char_at_alphabet (n : nat) :
  (n < 64)%nat ->
  is_alphabet (char_at base64_chars n) = true /\ T_at (char_at base64_chars n) = Z.of_nat n.
Proof.
  intros Hn. pose proof enc_char_table as H. rewrite forallb_forall in H.
  specialize (H n). rewrite in_seq in H. specialize (H ltac:(lia)).
  apply andb_true_iff in H as [Ha Ht]. split; [exact Ha | lia].
Qed.

(** X2: the table the initialisation loop builds inverts the alphabet
    string: the character at position [i] of the alphabet has value [i],
    and a character has a value other than -1 only if it is at some
    position of the alphabet. *)
Theorem table_inverts_alphabet :
  (forall i : nat, (i < 64)%nat -> T_at (char_at base64_chars i) = Z.of_nat i)
  /\ (forall c : ascii,
        T_at c <> -1 ->
        exists i : nat, (i < 64)%nat /\ char_at base64_chars i = c /\ T_at c = Z.of_nat i).
Proof.
  split.
  - intros i Hi. apply char_at_alphabet, Hi.
  - intros c Hc. rewrite T_at_spec in Hc. destruct (is_alphabet c) eqn:Ha; [|congruence].
    pose proof (sextet_range c Ha) as R. exists (Z.to_nat (sextet c)).
    split; [lia|]. rewrite T_at_spec, Ha. split; [|lia].
    clear Hc R. revert Ha. destruct c as [[] [] [] [] [] [] [] []]; vm_compute; congruence.
Qed.

Lemma table_inverts_alphabet_witness :
  T_at (char_at base64_chars 62) = 62
  /\ exists i : nat, (i < 64)%nat /\ char_at base64_chars i = "/"%char
                     /\ T_at "/"%char = Z.of_nat i.
Proof.
  split.
  - apply (proj1 table_inverts_alphabet 62%nat). lia.
  - apply (proj2 table_inverts_alphabet "/"%char). vm_compute. discriminate.
Defined.

Ltac div_arith := Z.to_euclidean_division_equations; lia.

Lemma prefix_sextets_enc (i : Z) (rest : string) :
  0 <= i < 64 ->
  sextets (alphabet_prefix (String (enc_char i) rest)) = i :: sextets (alphabet_prefix rest).
Proof.
  intros Hi. destruct (char_at_alphabet (Z.to_nat i) ltac:(lia)) as [Ha Ht].
  unfold enc_char. cbn [alphabet_prefix]. rewrite Ha.
  unfold sextets. cbn [list_ascii_of_string map]. f_equal.
  rewrite T_at_spec, Ha in Ht. lia.
Qed.

Lemma decode_encode_bytes (n : nat) :
  forall l : list Z,
    (length l <= n)%nat -> Forall (fun b => 0 <= b < 256) l ->
    decode_groups (sextets (alphabet_prefix (encode_bytes l))) = l.
Proof.
  induction n as [n IH] using lt_wf_ind. intros l Hn Hl.
  destruct l as [|a [|b [|c rest]]]; [reflexivity | | |].
  - apply Forall_cons in Hl as [Ha _]. cbn [encode_bytes].
    rewrite !prefix_sextets_enc by div_arith.
    change (sextets (alphabet_prefix "==")) with (@nil Z). cbn [decode_groups].
    f_equal. div_arith.
  - apply Forall_cons in Hl as [Ha Hl]. apply Forall_cons in Hl as [Hb _].
    cbn [encode_bytes]. rewrite !prefix_sextets_enc by div_arith.
    change (sextets (alphabet_prefix "=")) with (@nil Z). cbn [decode_groups].
    f_equal; [div_arith|]. f_equal. div_arith.
  - apply Forall_cons in Hl as [Ha Hl]. apply Forall_cons in Hl as [Hb Hl].
    apply Forall_cons in Hl as [Hc Hl].
    cbn [encode_bytes]. rewrite !prefix_sextets_enc by div_arith.
    cbn [decode_groups]. cbn [length] in Hn. rewrite (IH (length rest)) by (lia || assumption).
    f_equal; [div_arith|]. f_equal; [div_arith|]. f_equal. div_arith.
Qed.

Lemma bytes_of_string_range (s : string) : Forall (fun b => 0 <= b < 256) (bytes_of_string s).
Proof.
  unfold bytes_of_string. induction s as [|c s IH]; [constructor|].
  cbn [list_ascii_of_string map]. constructor; [|exact IH].
  pose proof (nat_ascii_bounded c). unfold uchar. lia.
Qed.

Lemma string_of_bytes_of_string (s : string) : string_of_bytes (bytes_of_string s) = s.
Proof.
  unfold string_of_bytes, bytes_of_string. induction s as [|c s IH]; [reflexivity|].
  cbn [list_ascii_of_string map string_of_list_ascii]. rewrite IH. f_equal.
  unfold char_of_Z, uchar. rewrite Nat2Z.id. apply ascii_nat_embedding.
Qed.

Lemma encode_nonempty (s : string) : s <> EmptyString -> base64_encode s <> EmptyString.
Proof.
  intros Hs. destruct s as [|a [|b [|c s]]]; [congruence | discriminate ..].
Qed.

(** X3: decoding inverts the standard padded base64 encoding: every byte
    string comes back unchanged from its encoding. *)
Theorem decode_encode (s : string) : base64_decode (base64_encode s) = s.
Proof.
  rewrite base64_decode_groups. unfold base64_encode.
  rewrite (decode_encode_bytes (length (bytes_of_string s))).
  - apply string_of_bytes_of_string.
  - lia.
  - apply bytes_of_string_range.
Qed.

Lemma alphabet_prefix_app_valid (p s : string) :
  alphabet_prefix p = p -> alphabet_prefix (p +:+ s) = p +:+ alphabet_prefix s.
Proof.
  induction p as [|c p IH]; intros Hp; [reflexivity|].
  rewrite !append_cons. cbn [alphabet_prefix] in *.
  destruct (is_alphabet c); [|discriminate]. injection Hp as Hp. now rewrite IH.
Qed.

Lemma sextets_app (a b : string) : sextets (a +:+ b) = (sextets a ++ sextets b)%list.
Proof.
  unfold sextets. induction a as [|c a IH]; [reflexivity|].
  rewrite append_cons. cbn [list_ascii_of_string map app]. now rewrite IH.
Qed.

Lemma string_of_bytes_app (a b : list Z) :
  string_of_bytes (a ++ b)%list = string_of_bytes a +:+ string_of_bytes b.
Proof.
  unfold string_of_bytes. induction a as [|x a IH]; [reflexivity|].
  cbn [app map string_of_list_ascii]. rewrite append_cons. now rewrite IH.
Qed.

Lemma decode_groups_app (k : nat) :
  forall l1 l2 : list Z,
    length l1 = (4 * k)%nat ->
    decode_groups (l1 ++ l2)%list = (decode_groups l1 ++ decode_groups l2)%list.
Proof.
  induction k as [|k IH]; intros l1 l2 Hlen.
  - destruct l1; [reflexivity | discriminate].
  - destruct l1 as [|a [|b [|c [|d l1]]]]; try (cbn [length] in Hlen; lia).
    cbn [app decode_groups]. cbn [length] in Hlen. rewrite IH by lia. reflexivity.
Qed.

(** X4: decoding composes at group boundaries: when a text [p] of alphabet
    characters only has a length that is a multiple of four, decoding [p]
    followed by any text gives the bytes of [p] followed by the bytes of
    that text. *)
Theorem decode_app_at_group_boundary (p s : string) :
  alphabet_prefix p = p ->
  (String.length p mod 4 = 0)%nat ->
  base64_decode (p +:+ s) = base64_decode p +:+ base64_decode s.
Proof.
  intros Hp Hlen. rewrite !base64_decode_groups, Hp, alphabet_prefix_app_valid by exact Hp.
  rewrite sextets_app.
  apply Nat.Div0.mod_divides in Hlen as [k Hk].
  rewrite (decode_groups_app k) by (now rewrite length_sextets).
  apply string_of_bytes_app.
Qed.

Lemma decode_app_at_group_boundary_witness :
  base64_decode ("aGVs" +:+ "bG8=") = base64_decode "aGVs" +:+ base64_decode "bG8=".
Proof.
  apply (decode_app_at_group_boundary "aGVs" "bG8="); reflexivity.
Defined.

End Base64More.

(** ** The JSON escaping *)

Module Escaping.
Import Base64Facts Base64More.

(** What [escapeJson] makes of one character. *)
Lemma escapeJson_cons (c : ascii) (s : string) :
  (is_special c = true
   /\ exists d : ascii, escapeJson (String c s) = String (ascii_of_nat 92) (String d (escapeJson s))
        /\ Ascii.eqb d (ascii_of_nat 10) = false /\ Ascii.eqb d (ascii_of_nat 13) = false
        /\ Ascii.eqb d (ascii_of_nat 9) = false
        /\ unescapeJson (String (ascii_of_nat 92) (String d (escapeJson s)))
           = match unescapeJson (escapeJson s) with Some t => Some (String c t) | None => None end)
  \/ (is_special c = false /\ escapeJson (String c s) = String c (escapeJson s)
      /\ Ascii.eqb c (ascii_of_nat 92) = false /\ Ascii.eqb c (ascii_of_nat 34) = false).
Proof.
  cbn [escapeJson]. unfold is_special.
  destruct (Ascii.eqb c (ascii_of_nat 34)) eqn:H34.
  { apply Ascii.eqb_eq in H34 as ->. left. split; [reflexivity|].
    exists (ascii_of_nat 34). repeat split. }
  destruct (Ascii.eqb c (ascii_of_nat 92)) eqn:H92.
  { apply Ascii.eqb_eq in H92 as ->. left. split; [reflexivity|].
    exists (ascii_of_nat 92). repeat split. }
  destruct (Ascii.eqb c (ascii_of_nat 10)) eqn:H10.
  { apply Ascii.eqb_eq in H10 as ->. left. split; [reflexivity|].
    exists "n"%char. repeat split. }
  destruct (Ascii.eqb c (ascii_of_nat 13)) eqn:H13.
  { apply Ascii.eqb_eq in H13 as ->. left. split; [reflexivity|].
    exists "r"%char. repeat split. }
  destruct (Ascii.eqb c (ascii_of_nat 9)) eqn:H9.
  { apply Ascii.eqb_eq in H9 as ->. left. split; [reflexivity|].
    exists "t"%char. repeat split. }
  right. repeat split.
Qed.

Lemma unescape_escape (s : string) : unescapeJson (escapeJson s) = Some s.
Proof.
  induction s as [|c s IH]; [reflexivity|].
  destruct (escapeJson_cons c s) as [[_ [d [-> [_ [_ [_ ->]]]]]] | [_ [-> [H92 H34]]]].
  - now rewrite IH.
  - cbn [unescapeJson]. now rewrite H92, H34, IH.
Qed.

(** X5: the escaping loses nothing: reading the escapes back returns the
    original text, so two different texts never have the same escaped
    form. *)
Theorem escapeJson_injective (s1 s2 : string) :
  unescapeJson (escapeJson s1) = Some s1
  /\ (escapeJson s1 = escapeJson s2 -> s1 = s2).
Proof.
  split; [apply unescape_escape|].
  intros H. pose proof (unescape_escape s1) as H1. rewrite H, unescape_escape in H1.
  congruence.
Qed.

Lemma escapeJson_injective_witness :
  unescapeJson (escapeJson "a") = Some "a" /\ "a" = "a".
Proof.
  split.
  - apply (proj1 (escapeJson_injective "a" "a")).
  - apply (proj2 (escapeJson_injective "a" "a")). reflexivity.
Defined.

(** X6: escaping works character by character: the escaped form of a
    concatenation is the concatenation of the escaped forms. *)
Theorem escapeJson_app (a b : string) :
  escapeJson (a +:+ b) = escapeJson a +:+ escapeJson b.
Proof.
  induction a as [|c a IH]; [reflexivity|].
  rewrite append_cons. cbn [escapeJson]. rewrite IH. now rewrite append_assoc.
Qed.

Lemma escapeJson_length_step (s : string) :
  (String.length s <= String.length (escapeJson s) <= 2 * String.length s)%nat
  /\ (has_special s = false /\ escapeJson s = s
      \/ has_special s = true /\ (String.length s < String.length (escapeJson s))%nat).
Proof.
  induction s as [|c s [IHl IHs]]; [cbn; split; [lia | now left]|].
  cbn [has_special].
  destruct (escapeJson_cons c s) as [[Hc [d [-> _]]] | [Hc [-> _]]]; rewrite Hc;
    cbn [String.length orb]; (split; [lia|]).
  - right. split; [reflexivity | lia].
  - destruct IHs as [[Hs Heq] | [Hs Hlt]]; [left | right].
    + split; [exact Hs | now rewrite Heq].
    + split; [exact Hs | lia].
Qed.

(** X7: the escaped text is at least as long as the original and at most
    twice as long; it is the original itself exactly when the original has
    none of the five characters double quote, backslash, line feed,
    carriage return and tab. Every other character, the remaining control
    characters included, is copied as it is. *)
Theorem escapeJson_length_and_fixed_points (s : string) :
  (String.length s <= String.length (escapeJson s) <= 2 * String.length s)%nat
  /\ (escapeJson s = s <-> has_special s = false).
Proof.
  destruct (escapeJson_length_step s) as [Hlen Hcase]. split; [exact Hlen|].
  destruct Hcase as [[Hs Heq] | [Hs Hlt]].
  - split; auto.
  - split; [|congruence]. intros Heq. rewrite Heq in Hlt. lia.
Qed.

(** X8: the escaped text holds no line feed, no carriage return and no tab,
    so it always stays on one line. *)
Theorem escapeJson_no_line_breaks (s : string) :
  occurs (ascii_of_nat 10) (escapeJson s) = false
  /\ occurs (ascii_of_nat 13) (escapeJson s) = false
  /\ occurs (ascii_of_nat 9) (escapeJson s) = false.
Proof.
  induction s as [|c s [IH10 [IH13 IH9]]]; [repeat split|].
  destruct (escapeJson_cons c s) as [[_ [d [-> [H10 [H13 [H9 _]]]]]] | [Hc [-> _]]];
    cbn [occurs].
  - rewrite H10, H13, H9, IH10, IH13, IH9. repeat split.
  - unfold is_special in Hc. rewrite !orb_false_iff in Hc.
    destruct Hc as [[[[_ _] H10] H13] H9].
    rewrite H10, H13, H9, IH10, IH13, IH9. repeat split.
Qed.

End Escaping.

(** ** The memory probes *)

Module Memory.
Import Base64Facts.

Lemma substring_all (s : string) : substring 0 (String.length s) s = s.
Proof. induction s as [|c s IH]; [reflexivity|]. cbn [String.length substring]. now rewrite IH. Qed.

Lemma VmRSS_line (rest : string) :
  is_VmRSS ("VmRSS:" +:+ rest) = true
  /\ substring 6 (String.length ("VmRSS:" +:+ rest) - 6) ("VmRSS:" +:+ rest) = rest.
Proof.
  change ("VmRSS:" +:+ rest)
    with (String "V" (String "m" (String "R" (String "S" (String "S" (String ":" rest)))))).
  split; [destruct rest; reflexivity|].
  cbn [String.length Nat.sub substring]. rewrite Nat.sub_0_r. apply substring_all.
Qed.

Lemma scan_status_skip (w : World) (pre rest : list string) :
  Forall (fun line => is_VmRSS line = false) pre ->
  scan_status w (pre ++ rest) = scan_status w rest.
Proof.
  induction 1 as [|line pre Hline _ IH]; [reflexivity|].
  cbn [app scan_status]. unfold is_VmRSS in Hline. now rewrite Hline.
Qed.

(** X9: the cgroup peak file has priority. When it opens and holds more
    than -1024 bytes, the memory reported is that count in kilobytes,
    rounded toward zero, and /proc/self/status is not consulted; in
    particular a count of 0 to 1023 bytes is reported as 0. *)
Theorem cgroup_reading_wins (w : World) (text : string) :
  cgroup_memory_peak w = Some text ->
  -1024 < read_long w text ->
  getMemoryUsage w = Z.quot (read_long w text) 1024
  /\ 0 <= getMemoryUsage w
  /\ (0 <= read_long w text -> getMemoryUsage w = read_long w text / 1024).
Proof.
  intros Hfile Hbytes. unfold getMemoryUsage, getCgroupsMemoryPeak. rewrite Hfile.
  assert (Hq : 0 <= read_long w text ÷ 1024).
  { destruct (Z_le_gt_dec 0 (read_long w text)) as [Hpos | Hneg].
    - apply Z.quot_pos; lia.
    - assert (Hs : read_long w text ÷ 1024 = 0) by (apply Z.quot_small_iff; lia).
      rewrite Hs. lia. }
  destruct (0 <=? read_long w text ÷ 1024) eqn:Hle; [|lia].
  split; [reflexivity|]. split; [exact Hq|].
  intros Hpos. apply Z.quot_div_nonneg; lia.
Qed.

Lemma cgroup_reading_wins_witness :
  getMemoryUsage (cgroup_world 5000000) = Z.quot 5000000 1024
  /\ getMemoryUsage (cgroup_world (-5)) = Z.quot (-5) 1024.
Proof.
  split.
  - apply (proj1 (cgroup_reading_wins (cgroup_world 5000000) "peak" eq_refl eq_refl)).
  - apply (proj1 (cgroup_reading_wins (cgroup_world (-5)) "peak" eq_refl eq_refl)).
Defined.

(** X10: without a usable cgroup reading the memory reported is read from
    the first line of /proc/self/status that starts with the six characters
    VmRSS: and is the number found after that label; lines before it that
    do not start so are skipped and lines after it are not looked at. *)
Theorem fallback_reads_first_VmRSS_line
    (w : World) (pre post : list string) (rest : string) :
  getCgroupsMemoryPeak w < 0 ->
  proc_self_status w = (pre ++ ("VmRSS:" +:+ rest) :: post)%list ->
  Forall (fun line => is_VmRSS line = false) pre ->
  getMemoryUsage w = read_long w rest.
Proof.
  intros Hcg Hlines Hpre. unfold getMemoryUsage.
  destruct (0 <=? getCgroupsMemoryPeak w) eqn:Hle; [lia|].
  rewrite Hlines, scan_status_skip by exact Hpre.
  cbn [scan_status]. destruct (VmRSS_line rest) as [Hv Hs].
  unfold is_VmRSS in Hv. now rewrite Hv, Hs.
Qed.

Lemma fallback_reads_first_VmRSS_line_witness :
  getMemoryUsage
    (proc_world ["Name:   runner"; "VmRSS:   4321 kB"; "VmRSS:   1 kB"] 4321)
  = read_long
      (proc_world ["Name:   runner"; "VmRSS:   4321 kB"; "VmRSS:   1 kB"] 4321)
      "   4321 kB".
Proof.
  apply (fallback_reads_first_VmRSS_line
           (proc_world ["Name:   runner"; "VmRSS:   4321 kB"; "VmRSS:   1 kB"] 4321)
           ["Name:   runner"] ["VmRSS:   1 kB"] "   4321 kB").
  - reflexivity.
  - reflexivity.
  - repeat constructor.
Defined.

(** X11: without a usable cgroup reading and without any line starting with
    VmRSS: (an unreadable or empty /proc/self/status included) the memory
    reported is 0. *)
Theorem fallback_without_VmRSS_is_zero (w : World) :
  getCgroupsMemoryPeak w < 0 ->
  Forall (fun line => is_VmRSS line = false) (proc_self_status w) ->
  getMemoryUsage w = 0.
Proof.
  intros Hcg Hlines. unfold getMemoryUsage.
  destruct (0 <=? getCgroupsMemoryPeak w) eqn:Hle; [lia|].
  rewrite <- (app_nil_r (proc_self_status w)). now rewrite scan_status_skip.
Qed.

Lemma fallback_without_VmRSS_is_zero_witness :
  getMemoryUsage (proc_world ["Name:   runner"; "VmSize: 10 kB"] 4321) = 0.
Proof.
  apply (fallback_without_VmRSS_is_zero (proc_world ["Name:   runner"; "VmSize: 10 kB"] 4321)).
  - reflexivity.
  - repeat constructor.
Defined.

(** X12: the cgroup reading is unusable, and the fallback taken, exactly
    when the peak file does not open or holds -1024 bytes or fewer. *)
Theorem fallback_condition (w : World) :
  getCgroupsMemoryPeak w < 0
  <-> cgroup_memory_peak w = None
      \/ exists text, cgroup_memory_peak w = Some text /\ read_long w text <= -1024.
Proof.
  unfold getCgroupsMemoryPeak. destruct (cgroup_memory_peak w) as [text|].
  - split.
    + intros H. right. exists text. split; [reflexivity|].
      destruct (Z_le_gt_dec (read_long w text) (-1024)) as [Hle | Hgt]; [exact Hle|].
      exfalso. destruct (Z_le_gt_dec 0 (read_long w text)) as [Hpos | Hneg].
      * pose proof (Z.quot_pos (read_long w text) 1024 Hpos ltac:(lia)). lia.
      * assert (Hs : read_long w text ÷ 1024 = 0) by (apply Z.quot_small_iff; lia).
        rewrite Hs in H. lia.
    + intros [Hn | [t [Ht Hle]]]; [discriminate|]. injection Ht as <-.
      pose proof (Z.quot_le_mono (read_long w text) (-1024) 1024 ltac:(lia) Hle) as Hm.
      change (-1024 ÷ 1024) with (-1) in Hm. lia.
  - split; [now left | lia].
Qed.

Lemma fallback_condition_witness : getCgroupsMemoryPeak (proc_world [] 0) < 0.
Proof. apply (proj2 (fallback_condition (proc_world [] 0))). left. reflexivity. Defined.

End Memory.

(** ** More on the runs of [main] *)

Module Runs.
Import Base64 Base64Facts Base64More.

Ltac on_path env w :=
  generalize (main_path env w); generalize (main env w);
  let o := fresh "o" in let P := fresh "P" in intros o P; destruct P.

Ltac final_state :=
  cbn [fst snd printError printSuccess emit log written write_file compiled start
       cout trace reports files app].

(** X13: when CODE holds a payload but the source file cannot be opened for
    writing, the run prints one compilation_error record with the message
    "Failed to write source file" and zero timings, writes nothing and
    starts no command; the exit code is 0. *)
Theorem unwritable_source_file (env : gmap string string) (w : World) (codeB64 : string) :
  env !! "CODE" = Some codeB64 ->
  codeB64 <> EmptyString ->
  can_write w sourceFile = false ->
  fst (main env w) = 0
  /\ exists r,
      reports (snd (main env w)) = [r]
      /\ cout (snd (main env w)) = render r +:+ nl
      /\ field "status" r = Some (JStr "compilation_error")
      /\ field "error_message" r = Some (JStr "Failed to write source file")
      /\ field "compilation_time_ms" r = Some (JNum 0)
      /\ field "execution_time_ms" r = Some (JNum 0)
      /\ trace (snd (main env w)) = [EvOpenWrite sourceFile false]
      /\ files (snd (main env w)) = ∅.
Proof.
  intros Hcode Hne Hopen. on_path env w;
    try (destruct H as [H | H]); try congruence.
  final_state. split; [reflexivity|]. eexists. split; [reflexivity|].
  rewrite append_nil_l, <- error_text_render by reflexivity.
  repeat split; reflexivity.
Qed.

Lemma unwritable_source_file_witness :
  fst (main (env_of (Some empty_program_b64) None) read_only_world) = 0.
Proof.
  apply (unwritable_source_file (env_of (Some empty_program_b64) None) read_only_world
           empty_program_b64).
  - vm_compute. reflexivity.
  - discriminate.
  - reflexivity.
Defined.

(** X14: when the source file was written but no pipe to the compiler could
    be created, the run prints one compilation_error record with the
    message "Failed to start compiler" and a compilation time of 0; the
    source file stays on disk with the scaffold and the decoded code. *)
Theorem compiler_not_started (env : gmap string string) (w : World) (codeB64 : string) :
  env !! "CODE" = Some codeB64 ->
  codeB64 <> EmptyString ->
  can_write w sourceFile = true ->
  popen_r w compileCmd (<[sourceFile := scaffold +:+ base64_decode codeB64 +:+ nl]> ∅) = None ->
  fst (main env w) = 0
  /\ exists r,
      reports (snd (main env w)) = [r]
      /\ cout (snd (main env w)) = render r +:+ nl
      /\ field "status" r = Some (JStr "compilation_error")
      /\ field "error_message" r = Some (JStr "Failed to start compiler")
      /\ field "compilation_time_ms" r = Some (JNum 0)
      /\ field "execution_time_ms" r = Some (JNum 0)
      /\ trace (snd (main env w))
         = [EvOpenWrite sourceFile true;
            EvWriteClose sourceFile (scaffold +:+ base64_decode codeB64 +:+ nl);
            EvPopen compileCmd false]
      /\ files (snd (main env w)) !! sourceFile
         = Some (scaffold +:+ base64_decode codeB64 +:+ nl).
Proof.
  intros Hcode Hne Hopen Hpipe. on_path env w;
    try (destruct H as [H | H]); simplify_eq.
  all: try congruence.
  all: try match goal with
           | H : popen_r _ _ _ = Some _ |- _ =>
               exfalso; generalize (eq_trans (eq_sym Hpipe) H); discriminate
           end.
  final_state. split; [reflexivity|]. eexists. split; [reflexivity|].
  rewrite append_nil_l, <- error_text_render by reflexivity.
  repeat split; reflexivity.
Qed.

Lemma compiler_not_started_witness :
  fst (main (env_of (Some empty_program_b64) None) no_compiler_world) = 0.
Proof.
  apply (compiler_not_started (env_of (Some empty_program_b64) None) no_compiler_world
           empty_program_b64).
  - vm_compute. reflexivity.
  - discriminate.
  - reflexivity.
  - reflexivity.
Defined.

Lemma int_wrap_small (z : Z) : 0 <= z < 2 ^ 31 -> int_wrap z = z.
Proof.
  unfold int_wrap. change (2 ^ 31) with 2147483648. change (2 ^ 32) with 4294967296.
  intros Hz. Z.to_euclidean_division_equations. lia.
Qed.



Lemma getMemoryUsage_quiet (w : World) :
  getMemoryUsage (quiet_on_success w) = getMemoryUsage w.
Proof.
  unfold getMemoryUsage, getCgroupsMemoryPeak. cbn [cgroup_memory_peak read_long
    proc_self_status quiet_on_success].
  assert (Hscan : forall l, scan_status (quiet_on_success w) l = scan_status w l).
  { induction l as [|line l IH]; [reflexivity|]. cbn [scan_status]. now rewrite IH. }
  now rewrite Hscan.
Qed.

(** X16: what the compiler prints is used only when it fails. A run on a
    machine whose compiler returns 0 is the same run, record and trace, if
    the compiler prints nothing: warnings of a successful compilation never
    reach the report. *)
Theorem compiler_output_dropped_on_success (env : gmap string string) (w : World) :
  main env (quiet_on_success w) = main env w.
Proof.
  unfold main. destruct (env !! "CODE") as [codeB64|]; [|reflexivity].
  destruct (String.length codeB64 =? 0)%nat; [reflexivity|].
  cbn [can_write popen_r quiet_on_success].
  destruct (can_write w sourceFile); cbn [negb]; [|reflexivity].
  destruct (popen_r w compileCmd _) as [[buffers status]|]; [|reflexivity].
  destruct status; cbn [Z.eqb negb compile_elapsed_ms quiet_on_success];
    rewrite ?getMemoryUsage_quiet; reflexivity.
Qed.

(** X17: decoding and writing compose with the standard encoding: when CODE
    is the padded base64 text of a non-empty program and the source file
    opens, the file handed to the compiler is the scaffold, the program
    byte for byte, and a final line feed. *)
Theorem encoded_program_is_compiled
    (env : gmap string string) (w : World) (program : string) :
  env !! "CODE" = Some (base64_encode program) ->
  program <> EmptyString ->
  can_write w sourceFile = true ->
  files (snd (main env w)) !! sourceFile = Some (scaffold +:+ program +:+ nl)
  /\ In (EvWriteClose sourceFile (scaffold +:+ program +:+ nl)) (trace (snd (main env w)))
  /\ started_commands (trace (snd (main env w))) = [compileCmd].
Proof.
  intros Hcode Hne Hopen. pose proof (encode_nonempty program Hne) as Henc.
  assert (Hdec : base64_decode (base64_encode program) = program).
  { rewrite base64_decode_groups. unfold base64_encode.
    rewrite (decode_encode_bytes (length (bytes_of_string program)))
      by (lia || apply bytes_of_string_range).
    apply string_of_bytes_of_string. }
  on_path env w; try (destruct H as [H | H]); simplify_eq; try congruence.
  all: final_state; rewrite Hdec; cbn [started_commands In];
    split; [apply lookup_insert_eq | split; [auto | reflexivity]].
Qed.

Lemma encoded_program_is_compiled_witness :
  files (snd (main (env_of (Some (base64_encode "int main(){}")) None) (simple_world [] 0 7)))
    !! sourceFile
  = Some (scaffold +:+ "int main(){}" +:+ nl).
Proof.
  apply (encoded_program_is_compiled (env_of (Some (base64_encode "int main(){}")) None)
           (simple_world [] 0 7) "int main(){}").
  - vm_compute. reflexivity.
  - discriminate.
  - reflexivity.
Defined.

Lemma has_nl_special (s : string) : has_special s = false -> has_nl s = false.
Proof.
  induction s as [|c s IH]; [reflexivity|]. cbn [has_special has_nl]. unfold is_special.
  rewrite !orb_false_iff. intros [[[[[_ _] H10] _] _] Hs]. now rewrite H10, IH.
Qed.

(** X18: [printError] with a status free of the five escaped characters and
    any message appends to the output exactly the rendering of its record
    and one line feed; the rendering itself holds no line feed, whatever the
    message; files and trace are left as they were. The status is written
    as it is, without escaping. *)
Theorem printError_appends_one_line
    (status message : string) (c e : Z) (st : Proc) :
  has_special status = false ->
  cout (printError status message c e st)
  = cout st +:+ render (error_report status message c e) +:+ nl
  /\ has_nl (render (error_report status message c e)) = false
  /\ reports (printError status message c e st)
     = (reports st ++ [error_report status message c e])%list
  /\ files (printError status message c e st) = files st
  /\ trace (printError status message c e st) = trace st.
Proof.
  intros Hs.
  assert (Hfix : escapeJson status = status).
  { destruct (Escaping.escapeJson_length_step status) as [_ [[_ H] | [H _]]]; congruence. }
  rewrite <- error_text_render by exact Hfix.
  split; [reflexivity|]. split; [|repeat split].
  apply error_text_no_nl, has_nl_special, Hs.
Qed.

Lemma printError_appends_one_line_witness :
  has_nl (render (error_report "compilation_error" ("a" +:+ nl +:+ "b") 1 0)) = false.
Proof.
  apply (printError_appends_one_line "compilation_error" ("a" +:+ nl +:+ "b") 1 0 start).
  reflexivity.
Defined.

End Runs.

(** ** The process seen from outside *)

Module Process.
Import Base64Facts.

Lemma lines_nil : lines EmptyString = [].
Proof. reflexivity. Qed.




End Process.
